(** * mbed-Keypad: the debounce state machine, its timers and the blocking
      buffers, embedded from [keypad.cpp] and [keypadBlocking.cpp].

    Conventions of the embedding.
    - [uint32_t] rows and columns are [N]; no arithmetic that could wrap is
      performed on them (the only counter, the row loop index, stays below
      [KEYPAD_NUM_ROWS]).
    - Time is in milliseconds, in [Z]. A handler that calls
      [Timeout::attach] receives the current time [now].
    - A [Timeout] is [None] when nothing is scheduled and [Some d] when its
      callback is scheduled for time [d].
    - The values returned by [col[c].read()] are inputs of the handlers.
    - [queue] holds the closures posted with [queue.call] and not yet
      dispatched, oldest first. *)

From Stdlib Require Import ZArith NArith List Bool Lia.
From stdpp Require Import base list.
Import ListNotations.

Local Open Scope Z_scope.

(** ** Constants *)

(** [constexpr auto DEBOUNCE_THRESH = 60ms;] (keypad.cpp) *)
Definition DEBOUNCE_THRESH : Z := 60.

(** [constexpr auto LONG_PRESS_THRESH = 300ms;] (keypad.cpp) *)
Definition LONG_PRESS_THRESH : Z := 300.

(** [constexpr auto KEYPAD_NUM_ROWS = 4;] (keypad.h) *)
Definition KEYPAD_NUM_ROWS : nat := 4.

(** [constexpr auto KEYPAD_NUM_COLS = 4;] (keypad.h) *)
Definition KEYPAD_NUM_COLS : nat := 4.

(** [constexpr auto KEYPAD_BUFFER_LEN = 16;] (keypad.h) *)
Definition KEYPAD_BUFFER_LEN : nat := 16.

(** ** Data *)

(** [enum ButtonState] of [class Keypad] (keypad.h), the enumerators in the
    order of the declaration. *)
Inductive ButtonState : Type :=
| RELEASED
| PRESS_BOUNCING
| PRESSED
| RELEASE_BOUNCING
| LONG_PRESSED.

(** The three kinds of listener ([onPress], [onRelease], [onLongpress]). *)
Inductive EventKind : Type :=
| Press
| Release
| Longpress.

(** A closure posted on the event queue: which listener it will invoke and
    the captured row and column. *)
Record Call : Type := mkCall {
  call_kind : EventKind;
  call_row : N;
  call_col : N
}.

(** The data members of [class Keypad] (keypad.h) that the member functions
    of keypad.cpp read and write: [state], [pressedRow], [pressedCol], the
    three [...CbEnabled] flags, the three [Timeout]s, the [EventQueue] and
    [threadHandle]. [toRowScan] remembers the template argument of the
    attached [row_scan_handler<curCol>]. [threadHandle] is [true] when the
    pointer is not null. The pin arrays [row] and [col] are the environment:
    what [col[c].read()] returns is an input of the handlers. *)
Record Keypad : Type := mkKeypad {
  state : ButtonState;
  pressedRow : N;
  pressedCol : N;
  pressCbEnabled : bool;
  releaseCbEnabled : bool;
  longpressCbEnabled : bool;
  toRowScan : option (Z * N);
  toButtonScan : option Z;
  toLongPressed : option Z;
  queue : list Call;
  threadHandle : bool
}.

(** Field updates. *)
Definition set_state (s : ButtonState) (k : Keypad) : Keypad :=
  mkKeypad s (pressedRow k) (pressedCol k) (pressCbEnabled k)
           (releaseCbEnabled k) (longpressCbEnabled k) (toRowScan k)
           (toButtonScan k) (toLongPressed k) (queue k) (threadHandle k).

Definition set_pressed (r c : N) (k : Keypad) : Keypad :=
  mkKeypad (state k) r c (pressCbEnabled k)
           (releaseCbEnabled k) (longpressCbEnabled k) (toRowScan k)
           (toButtonScan k) (toLongPressed k) (queue k) (threadHandle k).

Definition set_pressCbEnabled (b : bool) (k : Keypad) : Keypad :=
  mkKeypad (state k) (pressedRow k) (pressedCol k) b
           (releaseCbEnabled k) (longpressCbEnabled k) (toRowScan k)
           (toButtonScan k) (toLongPressed k) (queue k) (threadHandle k).

Definition set_releaseCbEnabled (b : bool) (k : Keypad) : Keypad :=
  mkKeypad (state k) (pressedRow k) (pressedCol k) (pressCbEnabled k)
           b (longpressCbEnabled k) (toRowScan k)
           (toButtonScan k) (toLongPressed k) (queue k) (threadHandle k).

Definition set_longpressCbEnabled (b : bool) (k : Keypad) : Keypad :=
  mkKeypad (state k) (pressedRow k) (pressedCol k) (pressCbEnabled k)
           (releaseCbEnabled k) b (toRowScan k)
           (toButtonScan k) (toLongPressed k) (queue k) (threadHandle k).

Definition set_toRowScan (t : option (Z * N)) (k : Keypad) : Keypad :=
  mkKeypad (state k) (pressedRow k) (pressedCol k) (pressCbEnabled k)
           (releaseCbEnabled k) (longpressCbEnabled k) t
           (toButtonScan k) (toLongPressed k) (queue k) (threadHandle k).

Definition set_toButtonScan (t : option Z) (k : Keypad) : Keypad :=
  mkKeypad (state k) (pressedRow k) (pressedCol k) (pressCbEnabled k)
           (releaseCbEnabled k) (longpressCbEnabled k) (toRowScan k)
           t (toLongPressed k) (queue k) (threadHandle k).

Definition set_toLongPressed (t : option Z) (k : Keypad) : Keypad :=
  mkKeypad (state k) (pressedRow k) (pressedCol k) (pressCbEnabled k)
           (releaseCbEnabled k) (longpressCbEnabled k) (toRowScan k)
           (toButtonScan k) t (queue k) (threadHandle k).

Definition set_threadHandle (b : bool) (k : Keypad) : Keypad :=
  mkKeypad (state k) (pressedRow k) (pressedCol k) (pressCbEnabled k)
           (releaseCbEnabled k) (longpressCbEnabled k) (toRowScan k)
           (toButtonScan k) (toLongPressed k) (queue k) b.

(** [queue.call(f)]: the closure is appended to the pending ones. *)
Definition queue_call (c : Call) (k : Keypad) : Keypad :=
  mkKeypad (state k) (pressedRow k) (pressedCol k) (pressCbEnabled k)
           (releaseCbEnabled k) (longpressCbEnabled k) (toRowScan k)
           (toButtonScan k) (toLongPressed k) (queue k ++ [c]) (threadHandle k).

(** The object as the constructor leaves it, from the default member
    initialisers of [class Keypad] in keypad.h:
    [ButtonState state {ButtonState::RELEASED};],
    [uint32_t pressedRow {};] and [uint32_t pressedCol {};] (zero),
    [bool pressCbEnabled {false};], [bool releaseCbEnabled {false};],
    [bool longpressCbEnabled {false};], [Thread *threadHandle {nullptr};],
    and the default-constructed [Timeout toRowScan], [toButtonScan],
    [toLongPressed] (nothing scheduled) and [EventQueue queue] (nothing
    posted). The constructor body in keypad.cpp only configures the pins and
    attaches the edge handlers; it writes none of these members. *)
Definition Keypad_new : Keypad :=
  mkKeypad RELEASED 0%N 0%N false false false None None None [] false.

(** ** Lifecycle: [initialize], [finalize], [is_initialized] *)

Definition is_initialized (k : Keypad) : bool := threadHandle k.

(** [Keypad::initialize]. [alloc_ok] tells whether [new (std::nothrow)
    Thread()] returned a thread, [start_ok] whether [start] returned [osOK]. *)
Definition initialize (alloc_ok start_ok : bool) (k : Keypad) : bool * Keypad :=
  if is_initialized k then (false, k)
  else if negb alloc_ok then (false, k)
  else
    let k1 := set_threadHandle true k in
    if negb start_ok then (false, set_threadHandle false k1)
    else (true, k1).

(** [Keypad::finalize]: the dispatch is broken, the worker joined, the thread
    freed and the handle reset. *)
Definition finalize (k : Keypad) : bool * Keypad :=
  if negb (is_initialized k) then (false, k)
  else (true, set_threadHandle false k).

(** ** Listener registration *)

Definition register_onpress (k : Keypad) : Keypad := set_pressCbEnabled true k.
Definition remove_onpress (k : Keypad) : Keypad := set_pressCbEnabled false k.
Definition is_onpress_registered (k : Keypad) : bool := pressCbEnabled k.

Definition register_onrelease (k : Keypad) : Keypad := set_releaseCbEnabled true k.
Definition remove_onrelease (k : Keypad) : Keypad := set_releaseCbEnabled false k.
Definition is_onrelease_registered (k : Keypad) : bool := releaseCbEnabled k.

Definition register_onlongpress (k : Keypad) : Keypad := set_longpressCbEnabled true k.
Definition remove_onlongpress (k : Keypad) : Keypad := set_longpressCbEnabled false k.
Definition is_onlongpress_registered (k : Keypad) : bool := longpressCbEnabled k.

(** ** Interrupt and timer handlers *)

(** [Keypad::fall_handler<curCol>]. *)
Definition fall_handler (curCol : N) (now : Z) (k : Keypad) : Keypad :=
  match state k with
  | RELEASED =>
      set_toRowScan (Some (now + DEBOUNCE_THRESH, curCol))
                    (set_state PRESS_BOUNCING k)
  | _ => k
  end.

(** [Keypad::rise_handler<curCol>]; the template argument is not used by the
    body. *)
Definition rise_handler (curCol : N) (now : Z) (k : Keypad) : Keypad :=
  match state k with
  | PRESSED | LONG_PRESSED =>
      set_toButtonScan (Some (now + DEBOUNCE_THRESH))
                       (set_state RELEASE_BOUNCING k)
  | _ => k
  end.

(** The loop of [row_scan_handler]: starting at row [i], with [n] rows left,
    the first row for which the column reads non-zero while that row is
    driven. [reads i] is the value of [col[curCol].read()] between
    [row[i] = 1] and [row[i] = 0]. *)
Fixpoint row_sweep (reads : N -> bool) (i : N) (n : nat) : option N :=
  match n with
  | O => None
  | S n' => if reads i then Some i else row_sweep reads (N.succ i) n'
  end.

(** [Keypad::row_scan_handler<curCol>]. *)
Definition row_scan_handler (curCol : N) (reads : N -> bool) (now : Z)
    (k : Keypad) : Keypad :=
  match state k with
  | PRESS_BOUNCING =>
      match row_sweep reads 0%N KEYPAD_NUM_ROWS with
      | Some i =>
          let k1 := set_pressed i curCol (set_state PRESSED k) in
          let k2 := set_toLongPressed (Some (now + LONG_PRESS_THRESH)) k1 in
          if pressCbEnabled k2 then queue_call (mkCall Press i curCol) k2
          else k2
      | None => set_state RELEASED k
      end
  | _ => k
  end.

(** [toLongPressed.remaining_time().count() > 0]: the callback is scheduled
    for a time still ahead. *)
Definition remaining_time_positive (t : option Z) (now : Z) : bool :=
  match t with
  | Some d => now <? d
  | None => false
  end.

(** [Keypad::button_scan_handler]. [read] is the value of
    [col[pressedCol].read()]. *)
Definition button_scan_handler (read : bool) (now : Z) (k : Keypad) : Keypad :=
  match state k with
  | RELEASE_BOUNCING =>
      let curRow := pressedRow k in
      let curCol := pressedCol k in
      if negb read then set_state PRESSED k
      else
        let k1 := set_state RELEASED k in
        let k2 := if remaining_time_positive (toLongPressed k1) now
                  then set_toLongPressed None k1 else k1 in
        if releaseCbEnabled k2
        then queue_call (mkCall Release curRow curCol) k2
        else k2
  | _ => k
  end.

(** [Keypad::long_press_handler]. *)
Definition long_press_handler (k : Keypad) : Keypad :=
  match state k with
  | PRESSED =>
      let curRow := pressedRow k in
      let curCol := pressedCol k in
      let k1 := set_state LONG_PRESSED k in
      if longpressCbEnabled k1
      then queue_call (mkCall Longpress curRow curCol) k1
      else k1
  | _ => k
  end.

(** ** The machine driven by its environment *)

(** What reaches the keypad object: column interrupts, timer expirations
    (with the pin values their handler reads) and listener registration. *)
Inductive Input : Type :=
| Fall (c : N)
| Rise (c : N)
| RowScanFire (reads : N -> bool)
| ButtonScanFire (read : bool)
| LongPressFire
| RegisterOnPress
| RemoveOnPress
| RegisterOnRelease
| RemoveOnRelease
| RegisterOnLongpress
| RemoveOnLongpress.

(** A timer callback runs only if it is scheduled and its time has come;
    the timer is one-shot, so nothing stays scheduled once it ran. *)
Definition due (d now : Z) : bool := d <=? now.

(** One input arriving at time [fst e]. *)
Definition step (k : Keypad) (e : Z * Input) : Keypad :=
  let now := fst e in
  match snd e with
  | Fall c => fall_handler c now k
  | Rise c => rise_handler c now k
  | RowScanFire reads =>
      match toRowScan k with
      | Some (d, c) =>
          if due d now
          then row_scan_handler c reads now (set_toRowScan None k)
          else k
      | None => k
      end
  | ButtonScanFire read =>
      match toButtonScan k with
      | Some d =>
          if due d now
          then button_scan_handler read now (set_toButtonScan None k)
          else k
      | None => k
      end
  | LongPressFire =>
      match toLongPressed k with
      | Some d =>
          if due d now
          then long_press_handler (set_toLongPressed None k)
          else k
      | None => k
      end
  | RegisterOnPress => register_onpress k
  | RemoveOnPress => remove_onpress k
  | RegisterOnRelease => register_onrelease k
  | RemoveOnRelease => remove_onrelease k
  | RegisterOnLongpress => register_onlongpress k
  | RemoveOnLongpress => remove_onlongpress k
  end.

Definition run (k : Keypad) (tr : list (Z * Input)) : Keypad :=
  fold_left step tr k.

(** The gesture a transition classifies, read off the states before and
    after: a press is confirmed on [PRESS_BOUNCING -> PRESSED], a long press
    on [PRESSED -> LONG_PRESSED], a release on
    [RELEASE_BOUNCING -> RELEASED]. The position is the one the handler
    passes to the listener. *)
Definition gesture (k k' : Keypad) : option Call :=
  match state k, state k' with
  | PRESS_BOUNCING, PRESSED =>
      Some (mkCall Press (pressedRow k') (pressedCol k'))
  | PRESSED, LONG_PRESSED =>
      Some (mkCall Longpress (pressedRow k) (pressedCol k))
  | RELEASE_BOUNCING, RELEASED =>
      Some (mkCall Release (pressedRow k) (pressedCol k))
  | _, _ => None
  end.

(** The gestures classified along a run, in order. *)
Fixpoint gestures (k : Keypad) (tr : list (Z * Input)) : list Call :=
  match tr with
  | [] => []
  | e :: tr' =>
      let k' := step k e in
      match gesture k k' with
      | Some g => g :: gestures k' tr'
      | None => gestures k' tr'
      end
  end.

(** Whether the listener of a kind is registered. *)
Definition cb_enabled (kd : EventKind) (k : Keypad) : bool :=
  match kd with
  | Press => pressCbEnabled k
  | Release => releaseCbEnabled k
  | Longpress => longpressCbEnabled k
  end.

Definition is_kind (kd : EventKind) (c : Call) : bool :=
  match kd, call_kind c with
  | Press, Press | Release, Release | Longpress, Longpress => true
  | _, _ => false
  end.

(** The state machine proper: everything of the object but the listener
    flags, the posted closures and the thread handle. *)
Definition core (k : Keypad)
  : ButtonState * N * N * option (Z * N) * option Z * option Z :=
  (state k, pressedRow k, pressedCol k, toRowScan k, toButtonScan k,
   toLongPressed k).

Definition is_edge (e : Z * Input) : bool :=
  match snd e with
  | Fall _ | Rise _ => true
  | _ => false
  end.

(** A press is outstanding: the machine is past confirmation and before the
    confirmed release. *)
Definition held (k : Keypad) : bool :=
  match state k with
  | PRESSED | LONG_PRESSED | RELEASE_BOUNCING => true
  | _ => false
  end.

(** Reads of a sweep during which exactly the key of row [r] closes the
    column. *)
Definition key_at (r : N) : N -> bool := fun i => N.eqb i r.

(** Checker for a gesture sequence: [armed] tells whether a press is
    outstanding; a second press while one is outstanding is refused. *)
Fixpoint alternates (armed : bool) (l : list Call) : bool :=
  match l with
  | [] => true
  | c :: l' =>
      match call_kind c with
      | Press => if armed then false else alternates true l'
      | Release => alternates false l'
      | Longpress => alternates armed l'
      end
  end.

(** The same object with the three listener flags replaced. *)
Definition with_listeners (pe re le : bool) (k : Keypad) : Keypad :=
  set_longpressCbEnabled le (set_releaseCbEnabled re (set_pressCbEnabled pe k)).

(** What a step posts on the queue, given the gesture it classified. *)
Definition posted (k : Keypad) (g : option Call) : list Call :=
  match g with
  | Some c => if cb_enabled (call_kind c) k then [c] else []
  | None => []
  end.

(** ** Sample runs *)

(** The key of row 2, column 1 pressed at 0 and confirmed at 60. *)
Definition tr_press : list (Z * Input) :=
  [(0, Fall 1%N); (60, RowScanFire (key_at 2%N))].

(** The same key released at 100, the release confirmed at 160. *)
Definition tr_release : list (Z * Input) :=
  [(100, Rise 1%N); (160, ButtonScanFire true)].

(** Pressed, released, pressed again. *)
Definition tr_press_release_press : list (Z * Input) :=
  tr_press ++ tr_release ++ [(200, Fall 1%N); (260, RowScanFire (key_at 2%N))].

(** ** Timed scenarios

    The checkers below describe when a timed run is one the hardware can
    produce: timestamps do not go back, every timer callback runs exactly at
    the time it was scheduled for, and the pin values read by the handlers
    agree with the level the edges left the column at. *)

Fixpoint nondecreasing (ts : list Z) : bool :=
  match ts with
  | t1 :: ((t2 :: _) as ts') => (t1 <=? t2) && nondecreasing ts'
  | _ => true
  end.

(** A scheduled callback whose time lies strictly before [now] has not run. *)
Definition overdue (k : Keypad) (now : Z) : bool :=
  match toRowScan k with Some (d, _) => d <? now | None => false end
  || match toButtonScan k with Some d => d <? now | None => false end
  || match toLongPressed k with Some d => d <? now | None => false end.

(** A timer input arrives exactly when its timer was scheduled for. *)
Definition fires_at_deadline (k : Keypad) (e : Z * Input) : bool :=
  match snd e with
  | RowScanFire _ =>
      match toRowScan k with Some (d, _) => d =? fst e | None => false end
  | ButtonScanFire _ =>
      match toButtonScan k with Some d => d =? fst e | None => false end
  | LongPressFire =>
      match toLongPressed k with Some d => d =? fst e | None => false end
  | _ => true
  end.

Fixpoint on_time (k : Keypad) (tr : list (Z * Input)) : bool :=
  match tr with
  | [] => true
  | e :: tr' =>
      negb (overdue k (fst e)) && fires_at_deadline k e && on_time (step k e) tr'
  end.

(** The pin values agree with the signal: [level] is the level of the
    column ([true] is high, the key open). With the key of row [r] closed
    the sweep reads row [r] alone active and the column reads low; with the
    key open the column reads high. *)
Fixpoint reads_agree (r : N) (level : bool) (tr : list (Z * Input)) : bool :=
  match tr with
  | [] => true
  | e :: tr' =>
      match snd e with
      | Fall _ => reads_agree r false tr'
      | Rise _ => reads_agree r true tr'
      | RowScanFire reads =>
          (level
           || forallb (fun i => Bool.eqb (reads i) (key_at r i))
                      [0; 1; 2; 3]%N)
          && reads_agree r level tr'
      | ButtonScanFire b => Bool.eqb b level && reads_agree r level tr'
      | _ => reads_agree r level tr'
      end
  end.

Definition physical (r : N) (tr : list (Z * Input)) : bool :=
  nondecreasing (map fst tr) && on_time Keypad_new tr && reads_agree r true tr.

Definition edges_of (tr : list (Z * Input)) : list (Z * Input) :=
  filter (fun e => is_edge e = true) tr.

(** [n] fall/rise pairs on column [c], then the final fall. *)
Fixpoint bounce_pattern (c : N) (n : nat) (es : list Input) : bool :=
  match n, es with
  | O, [Fall c1] => N.eqb c1 c
  | S n', Fall c1 :: Rise c2 :: es' =>
      N.eqb c1 c && N.eqb c2 c && bounce_pattern c n' es'
  | _, _ => false
  end.

(** Consecutive timestamps are closer than [d]. *)
Fixpoint gaps_below (d : Z) (ts : list Z) : bool :=
  match ts with
  | t1 :: ((t2 :: _) as ts') => (t2 - t1 <? d) && gaps_below d ts'
  | _ => true
  end.

(** The run goes on for at least [d] after its last edge. *)
Definition quiet_for (d : Z) (tr : list (Z * Input)) : bool :=
  match last (map fst (edges_of tr)), last (map fst tr) with
  | Some te, Some tl => te + d <=? tl
  | _, _ => false
  end.

(** The scenario of the bounce-absorption property: [n] fall/rise pairs on
    column [c], each edge closer than the debounce duration to the one
    before, then the column low for at least the debounce duration, with
    the key of row [r]. *)
Definition bounce_scenario (c r : N) (n : nat) (tr : list (Z * Input)) : bool :=
  bounce_pattern c n (map snd (edges_of tr))
  && gaps_below DEBOUNCE_THRESH (map fst (edges_of tr))
  && quiet_for DEBOUNCE_THRESH tr
  && physical r tr.

Definition count_kind (kd : EventKind) (l : list Call) : nat :=
  length (filter (fun g => is_kind kd g = true) l).

(** Three bounces spread over more than the debounce duration: the
    row-confirm timer armed by the first edge fires at 60 in the middle of
    the burst. *)
Definition tr_long_bounce : list (Z * Input) :=
  [(0, Fall 1%N); (50, Rise 1%N); (55, Fall 1%N);
   (60, RowScanFire (key_at 2%N));
   (100, Rise 1%N); (110, Fall 1%N); (159, Rise 1%N);
   (160, ButtonScanFire true);
   (165, Fall 1%N);
   (225, RowScanFire (key_at 2%N))].

(** A press held from 60 to 1000 with a 5 ms glitch at 350: the long-press
    timer expires at 360, inside the release debounce window. *)
Definition tr_held_with_glitch : list (Z * Input) :=
  [(0, Fall 1%N); (60, RowScanFire (key_at 2%N));
   (350, Rise 1%N); (355, Fall 1%N);
   (360, LongPressFire);
   (410, ButtonScanFire false);
   (1000, Rise 1%N);
   (1060, ButtonScanFire true)].

(** A press held through the long-press threshold and then released. *)
Definition tr_long_press : list (Z * Input) :=
  [(0, Fall 1%N); (60, RowScanFire (key_at 2%N));
   (360, LongPressFire);
   (500, Rise 1%N);
   (560, ButtonScanFire true)].

(** The long-press timer cannot run at time [now]: it is not scheduled, or
    scheduled for later. *)
Definition long_press_not_due (k : Keypad) (now : Z) : Prop :=
  match toLongPressed k with
  | Some dl => now < dl
  | None => True
  end.

(** ** The blocking interface: [class KeypadBlocking] *)

Module KeypadBlocking.

(** [struct button_coord]. *)
Record button_coord : Type := mk_coord { r : N; c : N }.

(** Modelled from the spec: the [CircularBuffer<button_coord,
    KEYPAD_BUFFER_LEN>] template is a platform header, not part of the
    sources. An event buffer is an ordered sequence of positions, oldest
    first, of capacity [KEYPAD_BUFFER_LEN], created empty. *)
Definition CircularBuffer : Type := list button_coord.

(** Modelled from the spec: [CircularBuffer::size], the count of
    unconsumed entries. *)
Definition buf_size (b : CircularBuffer) : nat := length b.

(** Modelled from the spec: [CircularBuffer::push]; on push when full the
    oldest entry is discarded to make room. *)
Definition buf_push (x : button_coord) (b : CircularBuffer) : CircularBuffer :=
  if (length b <? KEYPAD_BUFFER_LEN)%nat then b ++ [x] else tl b ++ [x].

(** Modelled from the spec: [CircularBuffer::peek]; the oldest unconsumed
    entry without removing it, [None] when there is none. *)
Definition buf_peek (b : CircularBuffer) : option button_coord := head b.

(** Modelled from the spec: [CircularBuffer::pop]; removes the oldest
    unconsumed entry and hands it out, [None] when there is none. *)
Definition buf_pop (b : CircularBuffer) : option button_coord * CircularBuffer :=
  match b with
  | [] => (None, [])
  | x :: b' => (Some x, b')
  end.

(** The object: the keypad and the three buffers (the three mutexes are
    never taken by the member functions). *)
Record t : Type := mk {
  keypad : Keypad;
  pressBuf : CircularBuffer;
  releaseBuf : CircularBuffer;
  longpressBuf : CircularBuffer
}.

Definition set_keypad (k : Keypad) (kb : t) : t :=
  mk k (pressBuf kb) (releaseBuf kb) (longpressBuf kb).
Definition set_pressBuf (b : CircularBuffer) (kb : t) : t :=
  mk (keypad kb) b (releaseBuf kb) (longpressBuf kb).
Definition set_releaseBuf (b : CircularBuffer) (kb : t) : t :=
  mk (keypad kb) (pressBuf kb) b (longpressBuf kb).
Definition set_longpressBuf (b : CircularBuffer) (kb : t) : t :=
  mk (keypad kb) (pressBuf kb) (releaseBuf kb) b.

(** The constructor: the keypad is constructed and the three push
    functions are registered as its listeners. *)
Definition new : t :=
  mk (register_onlongpress (register_onrelease (register_onpress Keypad_new)))
     [] [] [].

Definition initialize (alloc_ok start_ok : bool) (kb : t) : bool * t :=
  let res := initialize alloc_ok start_ok (keypad kb) in
  (fst res, set_keypad (snd res) kb).

Definition finalize (kb : t) : bool * t :=
  let res := finalize (keypad kb) in
  (fst res, set_keypad (snd res) kb).

Definition is_initialized (kb : t) : bool :=
  is_initialized (keypad kb).

Definition press_available (kb : t) : nat := buf_size (pressBuf kb).
Definition release_available (kb : t) : nat := buf_size (releaseBuf kb).
Definition longpress_available (kb : t) : nat := buf_size (longpressBuf kb).

(** [peek_press(rptr, cptr)]: [None] is the return value [false];
    [Some (r, c)] is [true] with [*rptr = r] and [*cptr = c]. *)
Definition peek_press (kb : t) : option (N * N) :=
  match buf_peek (pressBuf kb) with
  | None => None
  | Some cur => Some (r cur, c cur)
  end.

(** [pop_press()]: the popped entry is not handed to the caller. *)
Definition pop_press (kb : t) : bool * t :=
  match buf_pop (pressBuf kb) with
  | (None, _) => (false, kb)
  | (Some _, b) => (true, set_pressBuf b kb)
  end.

Definition peek_release (kb : t) : option (N * N) :=
  match buf_peek (releaseBuf kb) with
  | None => None
  | Some cur => Some (r cur, c cur)
  end.

Definition pop_release (kb : t) : bool * t :=
  match buf_pop (releaseBuf kb) with
  | (None, _) => (false, kb)
  | (Some _, b) => (true, set_releaseBuf b kb)
  end.

Definition peek_longpress (kb : t) : option (N * N) :=
  match buf_peek (longpressBuf kb) with
  | None => None
  | Some cur => Some (r cur, c cur)
  end.

Definition pop_longpress (kb : t) : bool * t :=
  match buf_pop (longpressBuf kb) with
  | (None, _) => (false, kb)
  | (Some _, b) => (true, set_longpressBuf b kb)
  end.

Definition push_press (row col : N) (kb : t) : t :=
  set_pressBuf (buf_push (mk_coord row col) (pressBuf kb)) kb.

Definition push_release (row col : N) (kb : t) : t :=
  set_releaseBuf (buf_push (mk_coord row col) (releaseBuf kb)) kb.

Definition push_longpress (row col : N) (kb : t) : t :=
  set_longpressBuf (buf_push (mk_coord row col) (longpressBuf kb)) kb.

(** The three families of member functions, selected by the kind. *)
Definition available (kd : EventKind) (kb : t) : nat :=
  match kd with
  | Press => press_available kb
  | Release => release_available kb
  | Longpress => longpress_available kb
  end.

Definition peek (kd : EventKind) (kb : t) : option (N * N) :=
  match kd with
  | Press => peek_press kb
  | Release => peek_release kb
  | Longpress => peek_longpress kb
  end.

Definition pop (kd : EventKind) (kb : t) : bool * t :=
  match kd with
  | Press => pop_press kb
  | Release => pop_release kb
  | Longpress => pop_longpress kb
  end.

Definition push (kd : EventKind) (row col : N) (kb : t) : t :=
  match kd with
  | Press => push_press row col kb
  | Release => push_release row col kb
  | Longpress => push_longpress row col kb
  end.

(** Pushing a list of positions, first to last. *)
Definition push_all (kd : EventKind) (es : list (N * N)) (kb : t) : t :=
  fold_left (fun kb' p => push kd (fst p) (snd p) kb') es kb.

(** The poll loop of a consumer: peek the oldest entry, then pop it; [n]
    times, stopping early when a peek or a pop reports the buffer empty. *)
Fixpoint poll (kd : EventKind) (n : nat) (kb : t) : list (N * N) * t :=
  match n with
  | O => ([], kb)
  | S n' =>
      match peek kd kb with
      | None => ([], kb)
      | Some p =>
          let res := pop kd kb in
          if fst res
          then let rest := poll kd n' (snd res) in (p :: fst rest, snd rest)
          else ([], kb)
      end
  end.

(** Draining: polling as many times as entries are available. *)
Definition drain (kd : EventKind) (kb : t) : list (N * N) * t :=
  poll kd (available kd kb) kb.

(** The buffer of a kind, as the positions it holds, oldest first. *)
Definition contents (kd : EventKind) (kb : t) : list (N * N) :=
  map (fun x => (r x, c x))
      match kd with
      | Press => pressBuf kb
      | Release => releaseBuf kb
      | Longpress => longpressBuf kb
      end.

(** The worker running one posted closure: the listener registered by the
    constructor for the kind pushes the captured position. *)
Definition invoke (cl : Call) (kb : t) : t :=
  push (call_kind cl) (call_row cl) (call_col cl) kb.

(** [dispatch_events] on the closures pending in the queue: each is run in
    posting order and leaves the queue. *)
Definition dispatch_pending (kb : t) : t :=
  let k := keypad kb in
  let kb' := fold_left (fun b cl => invoke cl b) (queue k) kb in
  set_keypad
    (mkKeypad (state k) (pressedRow k) (pressedCol k) (pressCbEnabled k)
              (releaseCbEnabled k) (longpressCbEnabled k) (toRowScan k)
              (toButtonScan k) (toLongPressed k) [] (threadHandle k))
    kb'.

(** An input reaching the keypad inside the blocking object. *)
Definition feed (kb : t) (e : Z * Input) : t :=
  set_keypad (step (keypad kb) e) kb.

End KeypadBlocking.

(** The last [KEYPAD_BUFFER_LEN] elements of a list. *)
Definition keep_last (l : list (N * N)) : list (N * N) :=
  skipn (length l - KEYPAD_BUFFER_LEN) l.

(** ** Shapes of runs and of gesture sequences *)

(** Where a gesture sequence stands: no key held, a key held with no long
    press classified yet, a key held and its long press classified. *)
Inductive Phase : Type :=
| Idle
| Held
| HeldLong.

(** A gesture sequence of the form (press, at most one long press,
    release)*, possibly cut short, read from phase [ph] on. *)
Fixpoint well_formed (ph : Phase) (l : list Call) : bool :=
  match l with
  | [] => true
  | g :: l' =>
      match ph, call_kind g with
      | Idle, Press => well_formed Held l'
      | Held, Longpress => well_formed HeldLong l'
      | Held, Release => well_formed Idle l'
      | HeldLong, Release => well_formed Idle l'
      | _, _ => false
      end
  end.

(** The machine states a phase stands for. *)
Definition in_phase (ph : Phase) (k : Keypad) : Prop :=
  match ph with
  | Idle => held k = false
  | Held => held k = true /\ state k <> LONG_PRESSED
  | HeldLong => held k = true /\ toLongPressed k = None
  end.

(** The debounce timers are scheduled exactly in the bouncing states, and
    the long-press timer is not scheduled in LongPressed. *)
Definition timers_consistent (k : Keypad) : Prop :=
  (state k = PRESS_BOUNCING <-> toRowScan k <> None) /\
  (state k = RELEASE_BOUNCING <-> toButtonScan k <> None) /\
  (state k = LONG_PRESSED -> toLongPressed k = None).

(** Every scheduled timer was armed by an input of the history: the
    row-confirm timer by a falling edge on its column, the release-confirm
    timer by a rising edge, the long-press timer by a row-confirm expiry,
    each for the time of that input plus the timer's duration. *)
Definition timers_traced (hist : list (Z * Input)) (k : Keypad) : Prop :=
  (forall d c, toRowScan k = Some (d, c) ->
               exists t0, In (t0, Fall c) hist /\ d = t0 + DEBOUNCE_THRESH) /\
  (forall d, toButtonScan k = Some d ->
             exists t0 c, In (t0, Rise c) hist /\ d = t0 + DEBOUNCE_THRESH) /\
  (forall d, toLongPressed k = Some d ->
             exists t0 reads, In (t0, RowScanFire reads) hist /\
                              d = t0 + LONG_PRESS_THRESH).

Definition is_listener_input (e : Z * Input) : bool :=
  match snd e with
  | RegisterOnPress | RemoveOnPress | RegisterOnRelease | RemoveOnRelease
  | RegisterOnLongpress | RemoveOnLongpress => true
  | _ => false
  end.

(** The run contains no listener registration or removal. *)
Definition listeners_untouched (tr : list (Z * Input)) : bool :=
  forallb (fun e => negb (is_listener_input e)) tr.

(** The gestures of the kinds whose listener is registered in [k]. *)
Definition listened (k : Keypad) (l : list Call) : list Call :=
  List.filter (fun g => cb_enabled (call_kind g) k) l.

(** The positions of the calls of one kind, in order. *)
Definition positions (kd : EventKind) (l : list Call) : list (N * N) :=
  map (fun g => (call_row g, call_col g)) (List.filter (is_kind kd) l).

(** A run of inputs reaching the keypad of a blocking object. *)
Definition blocking_run (kb : KeypadBlocking.t) (tr : list (Z * Input))
  : KeypadBlocking.t :=
  fold_left KeypadBlocking.feed tr kb.

(* ================================================================= *)
(** * Properties *)

(** ** Case analysis of one step *)

Ltac unfold_handlers :=
  unfold step, fall_handler, rise_handler, row_scan_handler,
    button_scan_handler, long_press_handler, register_onpress,
    remove_onpress, register_onrelease, remove_onrelease,
    register_onlongpress, remove_onlongpress, remaining_time_positive,
    due, gesture, held, core, cb_enabled in *.

Ltac simpl_fields :=
  cbn [fst snd state pressedRow pressedCol pressCbEnabled
    releaseCbEnabled longpressCbEnabled toRowScan toButtonScan toLongPressed
    queue threadHandle set_state set_pressed set_pressCbEnabled
    set_releaseCbEnabled set_longpressCbEnabled set_toRowScan
    set_toButtonScan set_toLongPressed set_threadHandle queue_call
    call_kind call_row call_col negb] in *.

Ltac atomic x :=
  lazymatch x with
  | context [match _ with _ => _ end] => fail
  | _ => idtac
  end.

Ltac break_match :=
  repeat (simpl_fields;
          match goal with
          | |- context [match ?x with _ => _ end] =>
              atomic x; destruct x eqn:?
          end);
  simpl_fields.

Ltac step_cases k e :=
  destruct k as [st pr pc pe re le trs tbs tlp q th];
  destruct e as [now i]; destruct i; destruct st;
  unfold_handlers; break_match.

(** ** Gestures alternate *)

Lemma gesture_step_alternates (k : Keypad) (e : Z * Input) :
  match gesture k (step k e) with
  | Some g =>
      match call_kind g with
      | Press => held k = false /\ held (step k e) = true
      | Release => held k = true /\ held (step k e) = false
      | Longpress => held k = true /\ held (step k e) = true
      end
  | None => held (step k e) = held k
  end.
Proof.
  step_cases k e; auto.
Qed.

Lemma gestures_alternate (tr : list (Z * Input)) :
  forall k, alternates (held k) (gestures k tr) = true.
Proof.
  induction tr as [|e tr IH]; intros k; [reflexivity|].
  cbn [gestures].
  pose proof (gesture_step_alternates k e) as H.
  specialize (IH (step k e)).
  destruct (gesture k (step k e)) as [g|].
  - cbn [alternates]. destruct (call_kind g); destruct H as [H1 H2];
      rewrite H2 in IH; try rewrite H1; exact IH.
  - rewrite <- H. exact IH.
Qed.

Lemma alternates_release_between (mid : list Call) :
  forall p2 l2,
    alternates true (mid ++ p2 :: l2) = true ->
    call_kind p2 = Press ->
    exists r, In r mid /\ call_kind r = Release.
Proof.
  induction mid as [|x mid IH]; intros p2 l2 H Hp.
  - cbn in H. rewrite Hp in H. discriminate.
  - cbn in H. destruct (call_kind x) eqn:Hx.
    + discriminate.
    + exists x. split; [left; reflexivity | assumption].
    + destruct (IH _ _ H Hp) as [r [Hin Hr]].
      exists r. split; [right; assumption | assumption].
Qed.

Lemma alternates_split (l1 : list Call) :
  forall a p1 mid p2 l2,
    alternates a (l1 ++ p1 :: mid ++ p2 :: l2) = true ->
    call_kind p1 = Press -> call_kind p2 = Press ->
    exists r, In r mid /\ call_kind r = Release.
Proof.
  induction l1 as [|x l1 IH]; intros a p1 mid p2 l2 H H1 H2.
  - cbn in H. rewrite H1 in H. destruct a; [discriminate|].
    eapply alternates_release_between; eauto.
  - cbn in H. destruct (call_kind x); [destruct a; [discriminate|]| |];
      eapply IH; eauto.
Qed.

(** C1. Whatever inputs arrive, in whatever order and at whatever times,
    starting from the initial Released machine: between two press gestures
    of the classified sequence there is always a release gesture. *)
Theorem no_two_presses_without_release
    (tr : list (Z * Input)) (l1 : list Call) (p1 : Call) (mid : list Call)
    (p2 : Call) (l2 : list Call) :
  gestures Keypad_new tr = l1 ++ p1 :: mid ++ p2 :: l2 ->
  call_kind p1 = Press ->
  call_kind p2 = Press ->
  exists r, In r mid /\ call_kind r = Release.
Proof.
  intros Hg H1 H2.
  pose proof (gestures_alternate tr Keypad_new) as Ha.
  rewrite Hg in Ha. eapply alternates_split; eauto.
Qed.

Lemma no_two_presses_without_release_witness :
  exists r, In r [mkCall Release 2%N 1%N] /\ call_kind r = Release.
Proof.
  apply (no_two_presses_without_release tr_press_release_press []
           (mkCall Press 2%N 1%N) [mkCall Release 2%N 1%N]
           (mkCall Press 2%N 1%N) []); reflexivity.
Defined.

(** ** Listeners gate the posting, not the machine *)

(** C10. A step appends to the queue exactly the gesture it classified, and
    only if the listener of that kind is registered when the handler runs;
    otherwise the queue is unchanged. The machine itself (state, latched
    position, timers) and the gesture classified do not depend on which
    listeners are registered. *)
Theorem posting_gated_by_listener (k : Keypad) (e : Z * Input) :
  queue (step k e) = queue k ++ posted k (gesture k (step k e)) /\
  forall pe re le : bool,
    core (step (with_listeners pe re le k) e) = core (step k e) /\
    gesture (with_listeners pe re le k) (step (with_listeners pe re le k) e)
    = gesture k (step k e).
Proof.
  split.
  - unfold posted. step_cases k e; try rewrite app_nil_r; reflexivity.
  - intros pe' re' le'. unfold with_listeners.
    step_cases k e; split; reflexivity.
Qed.

(** ** Lifecycle *)

(** C7. [initialize] on an initialized object and [finalize] on one that is
    not return [false] and change nothing. From a non-initialized object,
    with the platform granting the thread and its start, [initialize],
    [finalize], [initialize], [finalize] all return [true], and the object
    ends as it began. *)
Theorem lifecycle_misuse_fails_and_reuse_succeeds :
  (forall (alloc_ok start_ok : bool) (k : Keypad),
      is_initialized k = true ->
      initialize alloc_ok start_ok k = (false, k)) /\
  (forall k : Keypad,
      is_initialized k = false -> finalize k = (false, k)) /\
  (forall k : Keypad,
      is_initialized k = false ->
      exists k1 k2 k3,
        initialize true true k = (true, k1) /\
        finalize k1 = (true, k2) /\
        initialize true true k2 = (true, k3) /\
        finalize k3 = (true, k) /\
        is_initialized k1 = true /\ k2 = k /\ is_initialized k3 = true).
Proof.
  split; [|split].
  - intros a s k H. unfold initialize. rewrite H. reflexivity.
  - intros k H. unfold finalize. rewrite H. reflexivity.
  - intros k H. destruct k as [st pr pc pe re le trs tbs tlp q th].
    unfold is_initialized in H. cbn in H. subst th.
    eexists _, _, _. cbn. repeat split.
Qed.

(** ** The latched position *)

Lemma position_changes_only_on_press (k : Keypad) (e : Z * Input) :
  match gesture k (step k e) with
  | Some g =>
      match call_kind g with
      | Press =>
          pressedRow (step k e) = call_row g /\
          pressedCol (step k e) = call_col g
      | _ =>
          pressedRow (step k e) = pressedRow k /\
          pressedCol (step k e) = pressedCol k /\
          call_row g = pressedRow k /\ call_col g = pressedCol k
      end
  | None =>
      pressedRow (step k e) = pressedRow k /\
      pressedCol (step k e) = pressedCol k
  end.
Proof.
  step_cases k e; auto.
Qed.

(** C2 (as the code has it). The latched position is written only by a press
    confirmation and nothing clears it: a step that brings the machine to
    Released leaves [pressedRow] and [pressedCol] as they were, and a step
    that changes either of them classifies a press. *)
Theorem latched_position_kept_until_next_press (k : Keypad) (e : Z * Input) :
  (state (step k e) = RELEASED ->
   pressedRow (step k e) = pressedRow k /\
   pressedCol (step k e) = pressedCol k) /\
  (pressedRow (step k e) <> pressedRow k \/
   pressedCol (step k e) <> pressedCol k ->
   exists g, gesture k (step k e) = Some g /\ call_kind g = Press).
Proof.
  split.
  - step_cases k e; intros; try discriminate; auto.
  - pose proof (position_changes_only_on_press k e) as H.
    destruct (gesture k (step k e)) as [g|].
    + destruct (call_kind g) eqn:Hk.
      * intros _. exists g. auto.
      * destruct H as (H1 & H2 & _). intros [Hn|Hn]; contradiction.
      * destruct H as (H1 & H2 & _). intros [Hn|Hn]; contradiction.
    + destruct H as (H1 & H2). intros [Hn|Hn]; contradiction.
Qed.

Lemma latched_position_kept_until_next_press_witness :
  pressedRow (step (run Keypad_new (tr_press ++ [(100, Rise 1%N)]))
                   (160, ButtonScanFire true)) = 2%N /\
  pressedCol (step (run Keypad_new (tr_press ++ [(100, Rise 1%N)]))
                   (160, ButtonScanFire true)) = 1%N.
Proof.
  apply (proj1 (latched_position_kept_until_next_press
                  (run Keypad_new (tr_press ++ [(100, Rise 1%N)]))
                  (160, ButtonScanFire true))).
  reflexivity.
Defined.

(** C2, the claim as stated fails: after a confirmed press at row 2,
    column 1 and its confirmed release the machine is Released and the
    position still reads (2, 1), not the initial (0, 0). *)
Lemma position_not_cleared_on_release :
  state (run Keypad_new (tr_press ++ tr_release)) = RELEASED /\
  pressedRow (run Keypad_new (tr_press ++ tr_release)) = 2%N /\
  pressedCol (run Keypad_new (tr_press ++ tr_release)) = 1%N /\
  pressedRow Keypad_new = 0%N /\ pressedCol Keypad_new = 0%N /\
  gestures Keypad_new (tr_press ++ tr_release)
  = [mkCall Press 2%N 1%N; mkCall Release 2%N 1%N].
Proof.
  repeat split.
Qed.

(** ** Edges while a gesture is in flight *)

(** C3 (as the code has it). Outside Released a falling edge on any column
    changes nothing. A rising edge on any column classifies no gesture and
    posts nothing; in PressBouncing and ReleaseBouncing it changes nothing,
    but in Pressed and LongPressed it starts the release debounce whatever
    its column: the handler does not look at the column. *)
Theorem edges_outside_released (k : Keypad) (now : Z) (c : N) :
  state k <> RELEASED ->
  step k (now, Fall c) = k /\
  gesture k (step k (now, Rise c)) = None /\
  queue (step k (now, Rise c)) = queue k /\
  (state k = PRESS_BOUNCING \/ state k = RELEASE_BOUNCING ->
   step k (now, Rise c) = k) /\
  (state k = PRESSED \/ state k = LONG_PRESSED ->
   step k (now, Rise c)
   = set_toButtonScan (Some (now + DEBOUNCE_THRESH))
                      (set_state RELEASE_BOUNCING k)).
Proof.
  intros Hs. destruct k as [st pr pc pe re le trs tbs tlp q th].
  destruct st; cbn in *; try contradiction;
    repeat split; intros [H|H]; try discriminate; reflexivity.
Qed.

Lemma edges_outside_released_witness :
  step (run Keypad_new tr_press) (100, Fall 3%N) = run Keypad_new tr_press /\
  gesture (run Keypad_new tr_press)
          (step (run Keypad_new tr_press) (100, Rise 3%N)) = None.
Proof.
  pose proof (edges_outside_released (run Keypad_new tr_press) 100 3%N) as H.
  destruct H as (H1 & H2 & _); [discriminate|].
  split; assumption.
Defined.

(** C3, the claim as stated fails: with the key of column 1 held (state
    Pressed), a rising edge on column 3 moves the machine to
    ReleaseBouncing and arms the release-confirm timer. *)
Lemma rise_on_other_column_transitions :
  state (run Keypad_new tr_press) = PRESSED /\
  pressedCol (run Keypad_new tr_press) = 1%N /\
  state (step (run Keypad_new tr_press) (100, Rise 3%N)) = RELEASE_BOUNCING /\
  toButtonScan (run Keypad_new tr_press) = None /\
  toButtonScan (step (run Keypad_new tr_press) (100, Rise 3%N)) = Some 160.
Proof.
  repeat split.
Qed.

(** ** The row sweep and the press confirmation *)

Lemma row_sweep_first (reads : N -> bool) (n : nat) :
  forall i r,
    row_sweep reads i n = Some r ->
    reads r = true /\
    (i <= r)%N /\ (r < i + N.of_nat n)%N /\
    forall j, (i <= j)%N -> (j < r)%N -> reads j = false.
Proof.
  induction n as [|n IH]; intros i r H; [discriminate|].
  cbn [row_sweep] in H. destruct (reads i) eqn:Hi.
  - injection H as <-. split; [assumption|].
    split; [lia|]. split; [lia|]. intros j H1 H2. lia.
  - apply IH in H. destruct H as (H1 & H2 & H3 & H4).
    split; [assumption|]. split; [lia|]. split; [lia|].
    intros j Hj1 Hj2. destruct (N.eq_dec j i) as [->|Hne]; [assumption|].
    apply H4; lia.
Qed.

Lemma row_sweep_none (reads : N -> bool) (n : nat) :
  forall i,
    row_sweep reads i n = None ->
    forall j, (i <= j)%N -> (j < i + N.of_nat n)%N -> reads j = false.
Proof.
  induction n as [|n IH]; intros i H j H1 H2; [lia|].
  cbn [row_sweep] in H. destruct (reads i) eqn:Hi; [discriminate|].
  destruct (N.eq_dec j i) as [->|Hne]; [assumption|].
  apply (IH _ H); lia.
Qed.

Lemma edge_ignored_while_bouncing (k : Keypad) (e : Z * Input) :
  state k = PRESS_BOUNCING -> is_edge e = true -> step k e = k.
Proof.
  intros Hs He. destruct k as [st pr pc pe re le trs tbs tlp q th].
  destruct e as [now i]. cbn in Hs. subst st.
  destruct i; try discriminate; reflexivity.
Qed.

Lemma edges_ignored_while_bouncing (noise : list (Z * Input)) (k : Keypad) :
  state k = PRESS_BOUNCING -> forallb is_edge noise = true ->
  run k noise = k /\ gestures k noise = [].
Proof.
  intros Hs. induction noise as [|e noise IH]; intros Hn; [split; reflexivity|].
  cbn [forallb] in Hn. apply andb_true_iff in Hn. destruct Hn as [He Hn].
  unfold run. cbn [fold_left gestures].
  rewrite (edge_ignored_while_bouncing k e Hs He).
  destruct (IH Hn) as [IH1 IH2]. split; [exact IH1|].
  unfold gesture. rewrite Hs. exact IH2.
Qed.

Lemma run_app (k : Keypad) (tr1 tr2 : list (Z * Input)) :
  run k (tr1 ++ tr2) = run (run k tr1) tr2.
Proof. unfold run. apply fold_left_app. Qed.

Lemma gestures_app (tr1 tr2 : list (Z * Input)) :
  forall k, gestures k (tr1 ++ tr2) = gestures k tr1 ++ gestures (run k tr1) tr2.
Proof.
  induction tr1 as [|e tr1 IH]; intros k; [reflexivity|].
  cbn [app gestures]. unfold run. cbn [fold_left]. fold (run (step k e) tr1).
  destruct (gesture k (step k e)); rewrite IH; reflexivity.
Qed.

(** A falling edge in Released arms the row-confirm timer for its column. *)
Lemma fall_arms_row_scan (k : Keypad) (t0 : Z) (c : N) :
  state k = RELEASED ->
  step k (t0, Fall c)
  = set_toRowScan (Some (t0 + DEBOUNCE_THRESH, c)) (set_state PRESS_BOUNCING k) /\
  gesture k (step k (t0, Fall c)) = None.
Proof.
  intros Hs. destruct k as [st pr pc pe re le trs tbs tlp q th].
  cbn in Hs. subst st. split; reflexivity.
Qed.

(** The row-confirm timer firing with some row active confirms the press. *)
Lemma row_scan_confirms (k : Keypad) (d t : Z) (c r : N) (reads : N -> bool) :
  state k = PRESS_BOUNCING -> toRowScan k = Some (d, c) -> d <= t ->
  row_sweep reads 0%N KEYPAD_NUM_ROWS = Some r ->
  let k1 := step k (t, RowScanFire reads) in
  state k1 = PRESSED /\ pressedRow k1 = r /\ pressedCol k1 = c /\
  toRowScan k1 = None /\ toButtonScan k1 = toButtonScan k /\
  toLongPressed k1 = Some (t + LONG_PRESS_THRESH) /\
  gesture k k1 = Some (mkCall Press r c).
Proof.
  intros Hs Ht Hd Hr. destruct k as [st pr pc pe re le trs tbs tlp q th].
  cbn in Hs, Ht. subst st trs. unfold step. cbn [fst snd toRowScan].
  unfold due. apply Z.leb_le in Hd. rewrite Hd.
  unfold row_scan_handler. cbn [state set_toRowScan]. rewrite Hr.
  cbn. destruct pe; cbn; repeat split.
Qed.

(** Until the next press, every gesture carries the latched position. *)
Lemma gestures_carry_latched_position (tr : list (Z * Input)) :
  forall k pre g post,
    gestures k tr = pre ++ g :: post ->
    (forall p, In p pre -> call_kind p <> Press) ->
    call_kind g <> Press ->
    call_row g = pressedRow k /\ call_col g = pressedCol k.
Proof.
  induction tr as [|e tr IH]; intros k pre g post Hg Hpre Hk.
  - destruct pre; discriminate.
  - cbn [gestures] in Hg.
    pose proof (position_changes_only_on_press k e) as Hp.
    destruct (gesture k (step k e)) as [g0|].
    + destruct pre as [|p pre]; cbn in Hg; injection Hg as -> Hg.
      * destruct (call_kind g); [contradiction| |]; tauto.
      * assert (call_kind p <> Press) as Hp0 by (apply Hpre; left; reflexivity).
        destruct (call_kind p); [contradiction| |];
          destruct Hp as (H1 & H2 & _); rewrite <- H1, <- H2;
          (eapply IH; [exact Hg| intros; apply Hpre; right; assumption | assumption]).
    + destruct Hp as (H1 & H2). rewrite <- H1, <- H2.
      eapply IH; eauto.
Qed.

(** C4. A falling edge on column [c] in Released, any further edges while
    the press bounces, then the row-confirm timer firing with some row
    active: the row latched is the first row of the sweep that reads active,
    the column latched is [c], the press gesture carries that pair, and so
    does every long-press and release gesture up to the next press. *)
Theorem press_latches_first_row_and_column
    (k0 : Keypad) (t0 t : Z) (c r : N) (noise tr : list (Z * Input))
    (reads : N -> bool) :
  state k0 = RELEASED ->
  forallb is_edge noise = true ->
  t0 + DEBOUNCE_THRESH <= t ->
  row_sweep reads 0%N KEYPAD_NUM_ROWS = Some r ->
  let kb := run k0 ((t0, Fall c) :: noise) in
  let k1 := step kb (t, RowScanFire reads) in
  (reads r = true /\ (r < N.of_nat KEYPAD_NUM_ROWS)%N /\
   forall i, (i < r)%N -> reads i = false) /\
  gesture kb k1 = Some (mkCall Press r c) /\
  pressedRow k1 = r /\ pressedCol k1 = c /\
  forall pre g post,
    gestures k1 tr = pre ++ g :: post ->
    (forall p, In p pre -> call_kind p <> Press) ->
    call_kind g <> Press ->
    call_row g = r /\ call_col g = c.
Proof.
  intros Hs Hn Ht Hr kb k1.
  destruct (fall_arms_row_scan k0 t0 c Hs) as [Hf _].
  assert (kb = set_toRowScan (Some (t0 + DEBOUNCE_THRESH, c))
                             (set_state PRESS_BOUNCING k0)) as Hkb.
  { unfold kb, run. cbn [fold_left]. rewrite Hf.
    apply edges_ignored_while_bouncing; [reflexivity | assumption]. }
  assert (state kb = PRESS_BOUNCING) as Hsb by (rewrite Hkb; reflexivity).
  assert (toRowScan kb = Some (t0 + DEBOUNCE_THRESH, c)) as Htb
      by (rewrite Hkb; reflexivity).
  destruct (row_scan_confirms kb _ t c r reads Hsb Htb Ht Hr)
    as (H1 & H2 & H3 & _ & _ & _ & H7).
  fold k1 in H1, H2, H3, H7.
  destruct (row_sweep_first reads _ _ _ Hr) as (R1 & _ & R3 & R4).
  split; [|split; [|split; [|split]]]; try assumption.
  - split; [assumption|]. split; [cbn in R3 |- *; lia|].
    intros i Hi. apply R4; lia.
  - intros pre g post Hg Hpre Hk.
    rewrite <- H2, <- H3. eapply gestures_carry_latched_position; eauto.
Qed.

Lemma press_latches_first_row_and_column_witness :
  gesture (run Keypad_new [(0, Fall 1%N); (5, Rise 1%N); (10, Fall 1%N)])
          (step (run Keypad_new [(0, Fall 1%N); (5, Rise 1%N); (10, Fall 1%N)])
                (60, RowScanFire (key_at 2%N)))
  = Some (mkCall Press 2%N 1%N).
Proof.
  refine (proj1 (proj2 (press_latches_first_row_and_column Keypad_new 0 60
            1%N 2%N [(5, Rise 1%N); (10, Fall 1%N)] [] (key_at 2%N)
            _ _ _ _))); [reflexivity | reflexivity | discriminate | reflexivity].
Defined.

(** ** While a key is held *)

Ltac leb_lia :=
  repeat match goal with
         | H : (_ <=? _) = true |- _ => apply Z.leb_le in H
         | H : (_ <=? _) = false |- _ => apply Z.leb_gt in H
         | H : (_ <? _) = true |- _ => apply Z.ltb_lt in H
         | H : (_ <? _) = false |- _ => apply Z.ltb_ge in H
         end;
  try lia.

Lemma held_step (k : Keypad) (e : Z * Input) :
  held k = true ->
  long_press_not_due k (fst e) ->
  match gesture k (step k e) with
  | Some g =>
      g = mkCall Release (pressedRow k) (pressedCol k) /\
      state (step k e) = RELEASED /\ toLongPressed (step k e) = None
  | None =>
      held (step k e) = true /\
      toLongPressed (step k e) = toLongPressed k /\
      pressedRow (step k e) = pressedRow k /\
      pressedCol (step k e) = pressedCol k
  end.
Proof.
  unfold long_press_not_due.
  step_cases k e; intros Hh Hd; try discriminate; auto; leb_lia.
Qed.

Lemma held_segment (tr : list (Z * Input)) :
  forall k,
    held k = true ->
    Forall (fun e => long_press_not_due k (fst e)) tr ->
    (forall g, In g (gestures k tr) -> call_kind g <> Release) ->
    gestures k tr = [] /\ held (run k tr) = true /\
    toLongPressed (run k tr) = toLongPressed k /\
    pressedRow (run k tr) = pressedRow k /\
    pressedCol (run k tr) = pressedCol k.
Proof.
  induction tr as [|e tr IH]; intros k Hh Hd Hg; [repeat split; assumption|].
  inversion Hd as [|? ? Hd1 Hd2]; subst.
  pose proof (held_step k e Hh Hd1) as Hs.
  cbn [gestures] in Hg |- *. unfold run. cbn [fold_left]. fold (run (step k e) tr).
  destruct (gesture k (step k e)) as [g|].
  - exfalso. destruct Hs as (-> & _). apply (Hg _ (or_introl eq_refl)). reflexivity.
  - destruct Hs as (H1 & H2 & H3 & H4).
    assert (Forall (fun e0 => long_press_not_due (step k e) (fst e0)) tr) as Hd'.
    { unfold long_press_not_due in *. rewrite H2. exact Hd2. }
    destruct (IH (step k e) H1 Hd' Hg) as (I1 & I2 & I3 & I4 & I5).
    repeat split; congruence.
Qed.

Lemma button_scan_releases (k : Keypad) (d t : Z) :
  state k = RELEASE_BOUNCING -> toButtonScan k = Some d -> d <= t ->
  let k' := step k (t, ButtonScanFire true) in
  state k' = RELEASED /\
  gesture k k' = Some (mkCall Release (pressedRow k) (pressedCol k)) /\
  toLongPressed k'
  = (if remaining_time_positive (toLongPressed k) t then None
     else toLongPressed k).
Proof.
  intros Hs Hb Hd. destruct k as [st pr pc pe re le trs tbs tlp q th].
  cbn in Hs, Hb. subst st tbs. unfold step. cbn [fst snd toButtonScan].
  unfold due. apply Z.leb_le in Hd. rewrite Hd.
  unfold button_scan_handler. cbn.
  destruct (remaining_time_positive tlp t); destruct re; cbn; repeat split.
Qed.

Lemma long_press_fires (k : Keypad) (d t : Z) :
  state k = PRESSED -> toLongPressed k = Some d -> d <= t ->
  let k' := step k (t, LongPressFire) in
  state k' = LONG_PRESSED /\
  gesture k k' = Some (mkCall Longpress (pressedRow k) (pressedCol k)) /\
  toLongPressed k' = None /\
  pressedRow k' = pressedRow k /\ pressedCol k' = pressedCol k.
Proof.
  intros Hs Hb Hd. destruct k as [st pr pc pe re le trs tbs tlp q th].
  cbn in Hs, Hb. subst st tlp. unfold step. cbn [fst snd toLongPressed].
  unfold due. apply Z.leb_le in Hd. rewrite Hd.
  unfold long_press_handler. cbn. destruct le; cbn; repeat split.
Qed.

(** Out of a state where no key is held, the first gesture is a press. *)
Lemma first_gesture_is_press (tr : list (Z * Input)) :
  forall k g l,
    held k = false -> gestures k tr = g :: l -> call_kind g = Press.
Proof.
  induction tr as [|e tr IH]; intros k g l Hh Hg; [discriminate|].
  cbn [gestures] in Hg.
  pose proof (gesture_step_alternates k e) as H.
  destruct (gesture k (step k e)) as [g0|].
  - injection Hg as -> _. destruct (call_kind g); [reflexivity| |];
      destruct H as [H _]; congruence.
  - eapply IH; [|exact Hg]. congruence.
Qed.

Lemma long_press_handler_idle (k : Keypad) :
  state k <> PRESSED -> long_press_handler k = k.
Proof.
  intros H. unfold long_press_handler. destruct (state k); try reflexivity.
  contradiction.
Qed.

Lemma not_due_before (k : Keypad) (dl : Z) (tr : list (Z * Input)) :
  toLongPressed k = Some dl ->
  Forall (fun e => fst e < dl) tr ->
  Forall (fun e => long_press_not_due k (fst e)) tr.
Proof.
  intros H. unfold long_press_not_due. rewrite H. auto.
Qed.

Lemma not_due_unscheduled (k : Keypad) (tr : list (Z * Input)) :
  toLongPressed k = None ->
  Forall (fun e => long_press_not_due k (fst e)) tr.
Proof.
  intros H. unfold long_press_not_due. rewrite H.
  induction tr; constructor; auto.
Qed.

(** ** Release before the long-press threshold *)

(** C5. A press confirmed at [t0]; then any inputs, all before
    [t0 + LONG_PRESS_THRESH], that contain no confirmed release; then the
    release-confirm timer firing, still before [t0 + LONG_PRESS_THRESH],
    with the column read high. The gestures of the whole run are the press
    and the release, with no long press; the long-press timer is cancelled;
    whatever comes later, no long press is classified before the next press;
    and the long-press handler changes nothing outside Pressed. *)
Theorem release_before_threshold_no_long_press
    (k0 : Keypad) (d t0 d2 t1 : Z) (c r : N) (reads : N -> bool)
    (pre post : list (Z * Input)) :
  let k1 := step k0 (t0, RowScanFire reads) in
  let k2 := run k1 pre in
  let k3 := step k2 (t1, ButtonScanFire true) in
  state k0 = PRESS_BOUNCING -> toRowScan k0 = Some (d, c) -> d <= t0 ->
  row_sweep reads 0%N KEYPAD_NUM_ROWS = Some r ->
  Forall (fun e => fst e < t0 + LONG_PRESS_THRESH) pre ->
  (forall g, In g (gestures k1 pre) -> call_kind g <> Release) ->
  state k2 = RELEASE_BOUNCING -> toButtonScan k2 = Some d2 -> d2 <= t1 ->
  t1 < t0 + LONG_PRESS_THRESH ->
  gestures k0 ((t0, RowScanFire reads) :: pre ++ [(t1, ButtonScanFire true)])
  = [mkCall Press r c; mkCall Release r c] /\
  state k3 = RELEASED /\
  toLongPressed k3 = None /\
  (forall pre' g post',
      gestures k3 post = pre' ++ g :: post' ->
      (forall p, In p pre' -> call_kind p <> Press) ->
      call_kind g <> Longpress) /\
  (forall k, state k <> PRESSED -> long_press_handler k = k).
Proof.
  intros k1 k2 k3 Hs Ht Hd Hr Hpre Hnr Hs2 Hb2 Hd2 Ht1.
  destruct (row_scan_confirms k0 d t0 c r reads Hs Ht Hd Hr)
    as (C1 & C2 & C3 & _ & _ & C6 & C7).
  fold k1 in C1, C2, C3, C6, C7.
  assert (held k1 = true) as Hh1 by (unfold held; rewrite C1; reflexivity).
  destruct (held_segment pre k1 Hh1 (not_due_before _ _ _ C6 Hpre) Hnr)
    as (S1 & S2 & S3 & S4 & S5).
  fold k2 in S2, S3, S4, S5.
  destruct (button_scan_releases k2 d2 t1 Hs2 Hb2 Hd2) as (B1 & B2 & B3).
  fold k3 in B1, B2, B3.
  split; [|split; [|split; [|split]]].
  - cbn [gestures]. fold k1. rewrite C7.
    rewrite gestures_app, S1. cbn [app gestures]. fold k2 k3. rewrite B2.
    rewrite S4, S5, C2, C3. reflexivity.
  - exact B1.
  - rewrite B3, S3, C6. unfold remaining_time_positive.
    destruct (t1 <? t0 + LONG_PRESS_THRESH) eqn:E; [reflexivity|].
    apply Z.ltb_ge in E. lia.
  - intros pre' g post' Hg Hp.
    assert (held k3 = false) as Hh3 by (unfold held; rewrite B1; reflexivity).
    destruct pre' as [|p pre'].
    + rewrite (first_gesture_is_press post k3 g post' Hh3 Hg). discriminate.
    + exfalso. apply (Hp p (or_introl eq_refl)).
      exact (first_gesture_is_press post k3 p _ Hh3 Hg).
  - exact long_press_handler_idle.
Qed.

Lemma release_before_threshold_no_long_press_witness :
  gestures (run Keypad_new [(0, Fall 1%N)])
    ((60, RowScanFire (key_at 2%N))
       :: [(100, Rise 1%N)] ++ [(160, ButtonScanFire true)])
  = [mkCall Press 2%N 1%N; mkCall Release 2%N 1%N].
Proof.
  refine (proj1 (release_before_threshold_no_long_press
            (run Keypad_new [(0, Fall 1%N)]) 60 60 160 160 1%N 2%N
            (key_at 2%N) [(100, Rise 1%N)] [] _ _ _ _ _ _ _ _ _ _)).
  - reflexivity.
  - reflexivity.
  - lia.
  - reflexivity.
  - repeat constructor.
  - cbn. intros g [].
  - reflexivity.
  - reflexivity.
  - lia.
  - reflexivity.
Defined.

(** ** Holding through the long-press threshold *)

(** C6 (as the code has it). A press confirmed at [t0]; inputs before
    [t0 + LONG_PRESS_THRESH] with no confirmed release; the long-press timer
    firing while the machine is in Pressed; further inputs with no confirmed
    release; then the release-confirm timer firing with the column read
    high. The gestures of the whole run are exactly the press, one long
    press and one release, all three at the latched position. *)
Theorem long_press_once_then_release
    (k0 : Keypad) (d t0 t2 d4 t4 : Z) (c r : N) (reads : N -> bool)
    (pre mid : list (Z * Input)) :
  let k1 := step k0 (t0, RowScanFire reads) in
  let k2 := run k1 pre in
  let k3 := step k2 (t2, LongPressFire) in
  let k4 := run k3 mid in
  state k0 = PRESS_BOUNCING -> toRowScan k0 = Some (d, c) -> d <= t0 ->
  row_sweep reads 0%N KEYPAD_NUM_ROWS = Some r ->
  Forall (fun e => fst e < t0 + LONG_PRESS_THRESH) pre ->
  (forall g, In g (gestures k1 pre) -> call_kind g <> Release) ->
  state k2 = PRESSED ->
  t0 + LONG_PRESS_THRESH <= t2 ->
  (forall g, In g (gestures k3 mid) -> call_kind g <> Release) ->
  state k4 = RELEASE_BOUNCING -> toButtonScan k4 = Some d4 -> d4 <= t4 ->
  gestures k0 ((t0, RowScanFire reads) :: pre ++ (t2, LongPressFire)
                 :: mid ++ [(t4, ButtonScanFire true)])
  = [mkCall Press r c; mkCall Longpress r c; mkCall Release r c].
Proof.
  intros k1 k2 k3 k4 Hs Ht Hd Hr Hpre Hnr Hs2 Ht2 Hnr3 Hs4 Hb4 Hd4.
  destruct (row_scan_confirms k0 d t0 c r reads Hs Ht Hd Hr)
    as (C1 & C2 & C3 & _ & _ & C6 & C7).
  fold k1 in C1, C2, C3, C6, C7.
  assert (held k1 = true) as Hh1 by (unfold held; rewrite C1; reflexivity).
  destruct (held_segment pre k1 Hh1 (not_due_before _ _ _ C6 Hpre) Hnr)
    as (S1 & S2 & S3 & S4 & S5).
  fold k2 in S2, S3, S4, S5.
  assert (toLongPressed k2 = Some (t0 + LONG_PRESS_THRESH)) as Hl2 by congruence.
  destruct (long_press_fires k2 _ t2 Hs2 Hl2 Ht2) as (L1 & L2 & L3 & L4 & L5).
  fold k3 in L1, L2, L3, L4, L5.
  assert (held k3 = true) as Hh3 by (unfold held; rewrite L1; reflexivity).
  destruct (held_segment mid k3 Hh3 (not_due_unscheduled _ _ L3) Hnr3)
    as (M1 & M2 & M3 & M4 & M5).
  fold k4 in M2, M3, M4, M5.
  destruct (button_scan_releases k4 d4 t4 Hs4 Hb4 Hd4) as (B1 & B2 & B3).
  cbn [gestures]. fold k1. rewrite C7.
  rewrite gestures_app, S1. cbn [app gestures]. fold k2 k3. rewrite L2.
  rewrite gestures_app, M1. cbn [app gestures]. fold k4. rewrite B2.
  rewrite M4, M5, L4, L5, S4, S5, C2, C3. reflexivity.
Qed.

Lemma long_press_once_then_release_witness :
  gestures (run Keypad_new [(0, Fall 1%N)])
    ((60, RowScanFire (key_at 2%N)) :: [] ++ (360, LongPressFire)
       :: [(500, Rise 1%N)] ++ [(560, ButtonScanFire true)])
  = [mkCall Press 2%N 1%N; mkCall Longpress 2%N 1%N; mkCall Release 2%N 1%N].
Proof.
  refine (long_press_once_then_release
            (run Keypad_new [(0, Fall 1%N)]) 60 60 360 560 560 1%N 2%N
            (key_at 2%N) [] [(500, Rise 1%N)] _ _ _ _ _ _ _ _ _ _ _ _).
  - reflexivity.
  - reflexivity.
  - lia.
  - reflexivity.
  - constructor.
  - cbn. intros g [].
  - reflexivity.
  - unfold LONG_PRESS_THRESH. lia.
  - cbn. intros g [].
  - reflexivity.
  - reflexivity.
  - lia.
Defined.

(** C6, the claim as stated fails: the key of row 2, column 1 is confirmed
    pressed at 60 and stays down until 1000, with one 5 ms glitch at 350.
    The long-press timer expires at 360 while the machine is in
    ReleaseBouncing and its handler does nothing; the run is one the
    hardware can produce, the key was held 940 ms, and no long press is
    classified. *)
Lemma long_press_lost_in_release_window :
  physical 2%N tr_held_with_glitch = true /\
  gestures Keypad_new tr_held_with_glitch
  = [mkCall Press 2%N 1%N; mkCall Release 2%N 1%N] /\
  count_kind Longpress (gestures Keypad_new tr_held_with_glitch) = 0%nat /\
  state (run Keypad_new (firstn 4 tr_held_with_glitch)) = RELEASE_BOUNCING /\
  step (run Keypad_new (firstn 4 tr_held_with_glitch)) (360, LongPressFire)
  = set_toLongPressed None (run Keypad_new (firstn 4 tr_held_with_glitch)) /\
  60 + LONG_PRESS_THRESH <= 1000.
Proof.
  vm_compute. repeat split; intros H; discriminate H.
Qed.

(** ** Bounce absorption *)

(** C9 (as the code has it). A falling edge on column [c] in Released arms
    the row-confirm timer; every later edge that arrives before that timer
    fires, however many there are, leaves the machine and the timer as they
    are; when the timer fires with some row active, exactly one press is
    classified over the whole run. *)
Theorem bounce_within_window_yields_one_press
    (k0 : Keypad) (t0 t : Z) (c r : N) (noise : list (Z * Input))
    (reads : N -> bool) :
  state k0 = RELEASED ->
  forallb is_edge noise = true ->
  t0 + DEBOUNCE_THRESH <= t ->
  row_sweep reads 0%N KEYPAD_NUM_ROWS = Some r ->
  run k0 ((t0, Fall c) :: noise) = step k0 (t0, Fall c) /\
  toRowScan (run k0 ((t0, Fall c) :: noise)) = Some (t0 + DEBOUNCE_THRESH, c) /\
  gestures k0 ((t0, Fall c) :: noise ++ [(t, RowScanFire reads)])
  = [mkCall Press r c] /\
  state (run k0 ((t0, Fall c) :: noise ++ [(t, RowScanFire reads)])) = PRESSED.
Proof.
  intros Hs Hn Ht Hr.
  destruct (fall_arms_row_scan k0 t0 c Hs) as [Hf Hg].
  assert (state (step k0 (t0, Fall c)) = PRESS_BOUNCING) as Hsb
      by (rewrite Hf; reflexivity).
  destruct (edges_ignored_while_bouncing noise _ Hsb Hn) as [N1 N2].
  assert (toRowScan (step k0 (t0, Fall c)) = Some (t0 + DEBOUNCE_THRESH, c))
      as Htb by (rewrite Hf; reflexivity).
  destruct (row_scan_confirms _ _ t c r reads Hsb Htb Ht Hr)
    as (C1 & _ & _ & _ & _ & _ & C7).
  assert (run k0 ((t0, Fall c) :: noise) = step k0 (t0, Fall c)) as Hrun
      by (unfold run; cbn [fold_left]; exact N1).
  split; [exact Hrun|]. split; [rewrite Hrun; exact Htb|]. split.
  - cbn [gestures]. rewrite Hg, gestures_app, N2, N1.
    cbn [app gestures]. rewrite C7. reflexivity.
  - change ((t0, Fall c) :: noise ++ [(t, RowScanFire reads)])
      with (((t0, Fall c) :: noise) ++ [(t, RowScanFire reads)]).
    rewrite run_app, Hrun. exact C1.
Qed.

Lemma bounce_within_window_yields_one_press_witness :
  gestures Keypad_new
    ((0, Fall 1%N)
       :: [(5, Rise 1%N); (10, Fall 1%N); (15, Rise 1%N); (20, Fall 1%N)]
       ++ [(60, RowScanFire (key_at 2%N))])
  = [mkCall Press 2%N 1%N].
Proof.
  refine (proj1 (proj2 (proj2 (bounce_within_window_yields_one_press
            Keypad_new 0 60 1%N 2%N
            [(5, Rise 1%N); (10, Fall 1%N); (15, Rise 1%N); (20, Fall 1%N)]
            (key_at 2%N) _ _ _ _))));
    [reflexivity | reflexivity | discriminate | reflexivity].
Defined.

(** C9, the claim as stated fails: three fall/rise pairs on column 1, every
    edge less than 60 ms after the one before, then the column low for
    60 ms; the burst lasts 165 ms, the row-confirm timer armed at 0 fires at
    60 inside it, and two presses are classified. *)
Lemma long_bounce_yields_two_presses :
  bounce_scenario 1%N 2%N 3 tr_long_bounce = true /\
  gestures Keypad_new tr_long_bounce
  = [mkCall Press 2%N 1%N; mkCall Release 2%N 1%N; mkCall Press 2%N 1%N] /\
  count_kind Press (gestures Keypad_new tr_long_bounce) = 2%nat.
Proof.
  vm_compute. repeat split.
Qed.

(** ** The event buffers *)

Lemma available_contents (kd : EventKind) (kb : KeypadBlocking.t) :
  KeypadBlocking.available kd kb = length (KeypadBlocking.contents kd kb).
Proof.
  unfold KeypadBlocking.contents. rewrite length_map. destruct kd; reflexivity.
Qed.

Lemma map_buf_push (x : KeypadBlocking.button_coord)
    (b : KeypadBlocking.CircularBuffer) :
  let f := fun y => (KeypadBlocking.r y, KeypadBlocking.c y) in
  map f (KeypadBlocking.buf_push x b)
  = if (length (map f b) <? KEYPAD_BUFFER_LEN)%nat
    then map f b ++ [f x]
    else tl (map f b) ++ [f x].
Proof.
  intros f. unfold KeypadBlocking.buf_push. rewrite length_map.
  destruct (length b <? KEYPAD_BUFFER_LEN)%nat; rewrite map_app;
    [reflexivity | destruct b; reflexivity].
Qed.

Lemma contents_push (kd : EventKind) (row col : N) (kb : KeypadBlocking.t) :
  KeypadBlocking.contents kd (KeypadBlocking.push kd row col kb)
  = if (length (KeypadBlocking.contents kd kb) <? KEYPAD_BUFFER_LEN)%nat
    then KeypadBlocking.contents kd kb ++ [(row, col)]
    else tl (KeypadBlocking.contents kd kb) ++ [(row, col)].
Proof.
  destruct kd; apply map_buf_push.
Qed.

Lemma contents_push_other (kd kd' : EventKind) (row col : N)
    (kb : KeypadBlocking.t) :
  kd <> kd' -> KeypadBlocking.contents kd' (KeypadBlocking.push kd row col kb) = KeypadBlocking.contents kd' kb.
Proof.
  intros H. destruct kd, kd'; try contradiction; reflexivity.
Qed.

Lemma push_keeps_last (l : list (N * N)) (x : N * N) :
  (length l <= KEYPAD_BUFFER_LEN)%nat ->
  (if (length l <? KEYPAD_BUFFER_LEN)%nat then l ++ [x] else tl l ++ [x])
  = keep_last (l ++ [x]).
Proof.
  intros Hl. unfold keep_last. rewrite length_app. cbn [length].
  destruct (length l <? KEYPAD_BUFFER_LEN)%nat eqn:E.
  - apply Nat.ltb_lt in E.
    replace (length l + 1 - KEYPAD_BUFFER_LEN)%nat with 0%nat by lia.
    reflexivity.
  - apply Nat.ltb_ge in E.
    replace (length l + 1 - KEYPAD_BUFFER_LEN)%nat with 1%nat by lia.
    destruct l as [|y l]; [cbn in E; unfold KEYPAD_BUFFER_LEN in E; lia|].
    reflexivity.
Qed.

Lemma keep_last_length (l : list (N * N)) :
  length (keep_last l) = Nat.min (length l) KEYPAD_BUFFER_LEN.
Proof.
  unfold keep_last. rewrite length_skipn. lia.
Qed.

Lemma keep_last_app (l es : list (N * N)) :
  keep_last (keep_last l ++ es) = keep_last (l ++ es).
Proof.
  unfold keep_last at 1 3. rewrite !length_app, keep_last_length.
  unfold keep_last.
  assert (skipn (length l - KEYPAD_BUFFER_LEN) l ++ es
          = skipn (length l - KEYPAD_BUFFER_LEN) (l ++ es)) as ->.
  { rewrite skipn_app.
    replace (length l - KEYPAD_BUFFER_LEN - length l)%nat with 0%nat by lia.
    reflexivity. }
  rewrite skipn_skipn. f_equal. lia.
Qed.

Lemma contents_push_all (kd : EventKind) (es : list (N * N)) :
  forall kb,
    (length (KeypadBlocking.contents kd kb) <= KEYPAD_BUFFER_LEN)%nat ->
    KeypadBlocking.contents kd (KeypadBlocking.push_all kd es kb) = keep_last (KeypadBlocking.contents kd kb ++ es).
Proof.
  induction es as [|[row col] es IH]; intros kb Hl.
  - cbn. rewrite app_nil_r. unfold keep_last.
    replace (length (KeypadBlocking.contents kd kb) - KEYPAD_BUFFER_LEN)%nat with 0%nat by lia.
    reflexivity.
  - unfold KeypadBlocking.push_all. cbn [fold_left fst snd]. fold (KeypadBlocking.push_all kd es (KeypadBlocking.push kd row col kb)).
    assert (KeypadBlocking.contents kd (KeypadBlocking.push kd row col kb)
            = keep_last (KeypadBlocking.contents kd kb ++ [(row, col)])) as Hp.
    { rewrite contents_push. apply push_keeps_last. exact Hl. }
    rewrite IH.
    + rewrite Hp, keep_last_app, <- app_assoc. reflexivity.
    + rewrite Hp, keep_last_length. lia.
Qed.

Lemma peek_pop_contents (kd : EventKind) (kb : KeypadBlocking.t) :
  match KeypadBlocking.contents kd kb with
  | [] =>
      KeypadBlocking.peek kd kb = None /\
      KeypadBlocking.pop kd kb = (false, kb)
  | p :: l =>
      KeypadBlocking.peek kd kb = Some p /\
      fst (KeypadBlocking.pop kd kb) = true /\
      KeypadBlocking.contents kd (snd (KeypadBlocking.pop kd kb)) = l
  end.
Proof.
  destruct kb as [k pb rb lb].
  destruct kd; cbn;
    [destruct pb | destruct rb | destruct lb]; cbn; repeat split.
Qed.

Lemma poll_contents (kd : EventKind) (n : nat) :
  forall kb,
    fst (KeypadBlocking.poll kd n kb) = firstn n (KeypadBlocking.contents kd kb) /\
    KeypadBlocking.contents kd (snd (KeypadBlocking.poll kd n kb))
    = skipn n (KeypadBlocking.contents kd kb).
Proof.
  induction n as [|n IH]; intros kb; [split; reflexivity|].
  cbn [KeypadBlocking.poll].
  pose proof (peek_pop_contents kd kb) as H.
  destruct (KeypadBlocking.contents kd kb) as [|p l] eqn:E.
  - destruct H as [-> _]. cbn. rewrite E. split; reflexivity.
  - destruct H as (-> & -> & H3). cbn [fst snd firstn skipn].
    destruct (IH (snd (KeypadBlocking.pop kd kb))) as [I1 I2].
    rewrite I1, I2, H3. split; reflexivity.
Qed.

(** C8. For each of the three event buffers, starting empty: after pushing
    at most [KEYPAD_BUFFER_LEN] positions, polling as many times as were
    pushed hands them back in the order pushed and leaves the buffer empty;
    after pushing [KEYPAD_BUFFER_LEN + 1] positions, draining hands back
    [KEYPAD_BUFFER_LEN] positions, those pushed but for the first. *)
Theorem buffer_round_trip
    (kd : EventKind) (es : list (N * N)) (kb : KeypadBlocking.t) :
  KeypadBlocking.available kd kb = 0%nat ->
  ((length es <= KEYPAD_BUFFER_LEN)%nat ->
   fst (KeypadBlocking.poll kd (length es) (KeypadBlocking.push_all kd es kb))
   = es /\
   KeypadBlocking.available kd
     (snd (KeypadBlocking.poll kd (length es)
             (KeypadBlocking.push_all kd es kb))) = 0%nat) /\
  (length es = S KEYPAD_BUFFER_LEN ->
   fst (KeypadBlocking.drain kd (KeypadBlocking.push_all kd es kb)) = tl es /\
   length (fst (KeypadBlocking.drain kd (KeypadBlocking.push_all kd es kb)))
   = KEYPAD_BUFFER_LEN).
Proof.
  intros Hav. rewrite available_contents in Hav.
  assert (KeypadBlocking.contents kd kb = []) as Hc
      by (destruct (KeypadBlocking.contents kd kb); [reflexivity|discriminate]).
  assert (KeypadBlocking.contents kd (KeypadBlocking.push_all kd es kb)
          = keep_last es) as Hp.
  { rewrite contents_push_all by (rewrite Hc; cbn [length]; lia).
    rewrite Hc. reflexivity. }
  split.
  - intros Hl.
    destruct (poll_contents kd (length es) (KeypadBlocking.push_all kd es kb))
      as [P1 P2].
    rewrite available_contents, P1, P2, Hp. unfold keep_last.
    replace (length es - KEYPAD_BUFFER_LEN)%nat with 0%nat by lia.
    cbn [skipn]. rewrite firstn_all, skipn_all. split; reflexivity.
  - intros Hl. unfold KeypadBlocking.drain.
    destruct (poll_contents kd
                (KeypadBlocking.available kd (KeypadBlocking.push_all kd es kb))
                (KeypadBlocking.push_all kd es kb)) as [P1 _].
    rewrite P1, available_contents, firstn_all, Hp. unfold keep_last.
    rewrite Hl. replace (S KEYPAD_BUFFER_LEN - KEYPAD_BUFFER_LEN)%nat
      with 1%nat by lia.
    destruct es as [|e es]; [discriminate|].
    cbn [skipn tl]. split; [reflexivity|]. cbn [length] in Hl.
    rewrite skipn_O. lia.
Qed.

Lemma buffer_round_trip_witness :
  fst (KeypadBlocking.poll Press (length [(2, 1); (0, 3); (3, 3)]%N)
         (KeypadBlocking.push_all Press [(2, 1); (0, 3); (3, 3)]%N
            KeypadBlocking.new))
  = [(2, 1); (0, 3); (3, 3)]%N /\
  KeypadBlocking.available Press
    (snd (KeypadBlocking.poll Press (length [(2, 1); (0, 3); (3, 3)]%N)
            (KeypadBlocking.push_all Press [(2, 1); (0, 3); (3, 3)]%N
               KeypadBlocking.new))) = 0%nat.
Proof.
  refine (proj1 (buffer_round_trip Press [(2, 1); (0, 3); (3, 3)]%N
                   KeypadBlocking.new _) _).
  - reflexivity.
  - cbn. unfold KEYPAD_BUFFER_LEN. lia.
Defined.

(* ================================================================= *)
(** * Further properties of the handlers *)

(** ** Noise *)

Lemma row_sweep_none_iff (reads : N -> bool) :
  row_sweep reads 0%N KEYPAD_NUM_ROWS = None <->
  forall i, (i < N.of_nat KEYPAD_NUM_ROWS)%N -> reads i = false.
Proof.
  split.
  - intros H i Hi. apply (row_sweep_none reads _ _ H); lia.
  - intros H. destruct (row_sweep reads 0%N KEYPAD_NUM_ROWS) as [r|] eqn:E;
      [|reflexivity].
    destruct (row_sweep_first reads _ _ _ E) as (H1 & _ & H3 & _).
    rewrite H in H1; [discriminate | lia].
Qed.

(** X1. A bounce that settles with no key down: when the row-confirm timer fires
    in PressBouncing and none of the rows reads active, the machine
    returns to Released; no gesture is classified, nothing is posted, no
    timer is armed and the latched position is untouched. *)
Theorem press_bounce_without_key_is_dropped
    (k : Keypad) (d t : Z) (c : N) (reads : N -> bool) :
  state k = PRESS_BOUNCING -> toRowScan k = Some (d, c) -> d <= t ->
  (forall i, (i < N.of_nat KEYPAD_NUM_ROWS)%N -> reads i = false) ->
  step k (t, RowScanFire reads) = set_toRowScan None (set_state RELEASED k) /\
  gesture k (step k (t, RowScanFire reads)) = None.
Proof.
  intros Hs Ht Hd Hr. apply row_sweep_none_iff in Hr.
  destruct k as [st pr pc pe re le trs tbs tlp q th].
  cbn in Hs, Ht. subst st trs. unfold step. cbn [fst snd toRowScan].
  unfold due. apply Z.leb_le in Hd. rewrite Hd.
  unfold row_scan_handler. cbn [state set_toRowScan]. rewrite Hr.
  split; reflexivity.
Qed.

Lemma press_bounce_without_key_is_dropped_witness :
  gesture (run Keypad_new [(0, Fall 1%N)])
          (step (run Keypad_new [(0, Fall 1%N)])
                (60, RowScanFire (fun _ => false))) = None.
Proof.
  refine (proj2 (press_bounce_without_key_is_dropped
                   (run Keypad_new [(0, Fall 1%N)]) 60 60 1%N
                   (fun _ => false) _ _ _ _));
    [reflexivity | reflexivity | lia | reflexivity].
Defined.

(** X2. A rising edge while a key is held, on whatever column, followed by the
    release-confirm timer reading the tracked column still low: the machine
    is back in Pressed (also when it was in LongPressed before), with no
    gesture classified, nothing posted, and the position and the long-press
    timer as they were. *)
Theorem rise_glitch_returns_to_pressed
    (k : Keypad) (t t' : Z) (c : N) :
  state k = PRESSED \/ state k = LONG_PRESSED ->
  t + DEBOUNCE_THRESH <= t' ->
  run k [(t, Rise c); (t', ButtonScanFire false)]
  = set_toButtonScan None (set_state PRESSED k) /\
  gestures k [(t, Rise c); (t', ButtonScanFire false)] = [].
Proof.
  intros Hs Ht. destruct k as [st pr pc pe re le trs tbs tlp q th].
  unfold run, gestures, step, rise_handler, button_scan_handler, due, gesture.
  cbn in Hs. apply Z.leb_le in Ht.
  destruct Hs as [-> | ->]; cbn; rewrite Ht; cbn; split; reflexivity.
Qed.

Lemma rise_glitch_returns_to_pressed_witness :
  gestures (run Keypad_new tr_press)
           [(100, Rise 3%N); (160, ButtonScanFire false)] = [].
Proof.
  refine (proj2 (rise_glitch_returns_to_pressed (run Keypad_new tr_press)
                   100 160 3%N _ _)); [left; reflexivity | discriminate].
Defined.

(** ** Invariants of every run *)

Lemma timers_consistent_step (k : Keypad) (e : Z * Input) :
  timers_consistent k -> timers_consistent (step k e).
Proof.
  unfold timers_consistent.
  step_cases k e; intros (H1 & H2 & H3);
    repeat match goal with
           | H : _ <-> _ |- _ => destruct H
           end;
    (split; [split | split; [split|]]); intros Hx;
    try discriminate Hx; try reflexivity; try assumption;
    try (exfalso; apply Hx; reflexivity);
    try solve [exfalso; auto; congruence];
    try solve [intuition congruence].
Qed.

(** X3. From construction on, whatever the inputs: the machine is in
    PressBouncing exactly when the row-confirm timer is scheduled and in
    ReleaseBouncing exactly when the release-confirm timer is scheduled, so
    a bouncing state always has the timer that ends it; and in LongPressed
    the long-press timer is not scheduled. *)
Theorem bouncing_states_have_their_timer (tr : list (Z * Input)) :
  timers_consistent (run Keypad_new tr).
Proof.
  assert (forall k, timers_consistent k -> timers_consistent (run k tr)) as H.
  { induction tr as [|e tr IH]; intros k Hk; [exact Hk|].
    unfold run. cbn [fold_left]. apply IH, timers_consistent_step, Hk. }
  apply H. unfold timers_consistent. cbn.
  repeat split; intros Hx; try discriminate Hx; try reflexivity;
    exfalso; apply Hx; reflexivity.
Qed.

Lemma phase_step (ph : Phase) (k : Keypad) (e : Z * Input) :
  in_phase ph k ->
  match gesture k (step k e) with
  | Some g =>
      match ph, call_kind g with
      | Idle, Press => in_phase Held (step k e)
      | Held, Longpress => in_phase HeldLong (step k e)
      | Held, Release | HeldLong, Release => in_phase Idle (step k e)
      | _, _ => False
      end
  | None => in_phase ph (step k e)
  end.
Proof.
  destruct ph; unfold in_phase.
  - step_cases k e; intros H; try discriminate H; auto.
  - step_cases k e; intros [H1 H2]; try discriminate H1;
      try contradiction; auto.
  - step_cases k e; intros [H1 H2]; try discriminate H1;
      try discriminate H2; auto.
Qed.

Lemma well_formed_from_phase (tr : list (Z * Input)) :
  forall ph k, in_phase ph k -> well_formed ph (gestures k tr) = true.
Proof.
  induction tr as [|e tr IH]; intros ph k Hk; [reflexivity|].
  cbn [gestures]. pose proof (phase_step ph k e Hk) as H.
  destruct (gesture k (step k e)) as [g|]; [|apply IH; exact H].
  cbn [well_formed].
  destruct ph, (call_kind g); try contradiction; apply IH; exact H.
Qed.

(** X4. From construction on, whatever the inputs, the classified gestures form
    a sequence of rounds, each a press, then at most one long press, then a
    release (the last round possibly unfinished): no release or long press
    comes without its press, and no press gets a second long press. *)
Theorem gestures_come_in_rounds (tr : list (Z * Input)) :
  well_formed Idle (gestures Keypad_new tr) = true.
Proof.
  apply well_formed_from_phase. reflexivity.
Qed.

Lemma press_row_from_sweep (k : Keypad) (e : Z * Input) (g : Call) :
  gesture k (step k e) = Some g -> call_kind g = Press ->
  exists reads, row_sweep reads 0%N KEYPAD_NUM_ROWS = Some (call_row g).
Proof.
  step_cases k e; intros Hg Hk; try discriminate Hg;
    injection Hg as <-; try discriminate Hk;
    eexists; eassumption.
Qed.

Lemma pressed_row_step (k : Keypad) (e : Z * Input) :
  (pressedRow k < N.of_nat KEYPAD_NUM_ROWS)%N ->
  (pressedRow (step k e) < N.of_nat KEYPAD_NUM_ROWS)%N /\
  forall g, gesture k (step k e) = Some g ->
            (call_row g < N.of_nat KEYPAD_NUM_ROWS)%N.
Proof.
  intros Hk.
  pose proof (position_changes_only_on_press k e) as Hp.
  pose proof (press_row_from_sweep k e) as Hr.
  destruct (gesture k (step k e)) as [g0|].
  - destruct (call_kind g0) eqn:Hk0.
    + destruct (Hr g0 eq_refl Hk0) as [reads Hsw].
      apply row_sweep_first in Hsw. destruct Hp as [Hp _].
      split; [rewrite Hp; lia|]. intros g Hg. injection Hg as <-. lia.
    + destruct Hp as (H1 & _ & H3 & _).
      split; [rewrite H1; exact Hk|]. intros g Hg. injection Hg as <-.
      rewrite H3. exact Hk.
    + destruct Hp as (H1 & _ & H3 & _).
      split; [rewrite H1; exact Hk|]. intros g Hg. injection Hg as <-.
      rewrite H3. exact Hk.
  - destruct Hp as [H1 _]. split; [rewrite H1; exact Hk|].
    intros g Hg. discriminate Hg.
Qed.

(** X5. From construction on, whatever the inputs, every classified gesture
    carries a row below [KEYPAD_NUM_ROWS]. *)
Theorem gesture_rows_in_grid (tr : list (Z * Input)) (g : Call) :
  In g (gestures Keypad_new tr) ->
  (call_row g < N.of_nat KEYPAD_NUM_ROWS)%N.
Proof.
  assert (forall k, (pressedRow k < N.of_nat KEYPAD_NUM_ROWS)%N ->
                    In g (gestures k tr) ->
                    (call_row g < N.of_nat KEYPAD_NUM_ROWS)%N) as H.
  { induction tr as [|e tr IH]; intros k Hk Hin; [destruct Hin|].
    cbn [gestures] in Hin.
    destruct (pressed_row_step k e Hk) as [H1 H2].
    destruct (gesture k (step k e)) as [g0|].
    - destruct Hin as [<-|Hin]; [apply H2; reflexivity | eapply IH; eauto].
    - eapply IH; eauto. }
  apply H. reflexivity.
Qed.

Lemma gesture_rows_in_grid_witness :
  (call_row (mkCall Release 2%N 1%N) < N.of_nat KEYPAD_NUM_ROWS)%N.
Proof.
  refine (gesture_rows_in_grid tr_press_release_press
            (mkCall Release 2%N 1%N) _).
  vm_compute. right. left. reflexivity.
Defined.

(** ** No gesture before its delay *)

Lemma step_toRowScan (k : Keypad) (e : Z * Input) :
  toRowScan (step k e) = toRowScan k \/
  toRowScan (step k e) = None \/
  exists c, snd e = Fall c /\
            toRowScan (step k e) = Some (fst e + DEBOUNCE_THRESH, c).
Proof.
  step_cases k e; auto; right; right; eexists; split; reflexivity.
Qed.

Lemma step_toButtonScan (k : Keypad) (e : Z * Input) :
  toButtonScan (step k e) = toButtonScan k \/
  toButtonScan (step k e) = None \/
  exists c, snd e = Rise c /\
            toButtonScan (step k e) = Some (fst e + DEBOUNCE_THRESH).
Proof.
  step_cases k e; auto; right; right; eexists; split; reflexivity.
Qed.

Lemma step_toLongPressed (k : Keypad) (e : Z * Input) :
  toLongPressed (step k e) = toLongPressed k \/
  toLongPressed (step k e) = None \/
  exists reads, snd e = RowScanFire reads /\
                toLongPressed (step k e) = Some (fst e + LONG_PRESS_THRESH).
Proof.
  step_cases k e; auto; right; right; eexists; split; reflexivity.
Qed.

Lemma timers_traced_step (hist : list (Z * Input)) (k : Keypad)
    (e : Z * Input) :
  timers_traced hist k -> timers_traced (hist ++ [e]) (step k e).
Proof.
  intros (H1 & H2 & H3). destruct e as [t i]. split; [|split].
  - intros d c Hd.
    destruct (step_toRowScan k (t, i)) as [E | [E | (c' & Ei & E)]];
      rewrite E in Hd; [| discriminate |].
    + destruct (H1 d c Hd) as (t0 & Hin & ->).
      exists t0. split; [apply in_or_app; left; exact Hin | reflexivity].
    + injection Hd as <- <-. cbn [fst snd] in *. subst i.
      exists t. split; [apply in_or_app; right; left; reflexivity | reflexivity].
  - intros d Hd.
    destruct (step_toButtonScan k (t, i)) as [E | [E | (c' & Ei & E)]];
      rewrite E in Hd; [| discriminate |].
    + destruct (H2 d Hd) as (t0 & c & Hin & ->).
      exists t0, c. split; [apply in_or_app; left; exact Hin | reflexivity].
    + injection Hd as <-. cbn [fst snd] in *. subst i.
      exists t, c'. split; [apply in_or_app; right; left; reflexivity | reflexivity].
  - intros d Hd.
    destruct (step_toLongPressed k (t, i)) as [E | [E | (rd & Ei & E)]];
      rewrite E in Hd; [| discriminate |].
    + destruct (H3 d Hd) as (t0 & rd & Hin & ->).
      exists t0, rd. split; [apply in_or_app; left; exact Hin | reflexivity].
    + injection Hd as <-. cbn [fst snd] in *. subst i.
      exists t, rd. split; [apply in_or_app; right; left; reflexivity | reflexivity].
Qed.

Lemma timers_traced_run (tr : list (Z * Input)) :
  forall hist k,
    timers_traced hist k -> timers_traced (hist ++ tr) (run k tr).
Proof.
  induction tr as [|e tr IH]; intros hist k H.
  - rewrite app_nil_r. exact H.
  - unfold run. cbn [fold_left]. fold (run (step k e) tr).
    replace (hist ++ e :: tr) with ((hist ++ [e]) ++ tr)
      by (rewrite <- app_assoc; reflexivity).
    apply IH, timers_traced_step, H.
Qed.

Lemma timers_traced_new (tr : list (Z * Input)) :
  timers_traced tr (run Keypad_new tr).
Proof.
  apply (timers_traced_run tr [] Keypad_new).
  repeat split; intros; discriminate.
Qed.

Lemma gesture_timer_due (k : Keypad) (e : Z * Input) (g : Call) :
  gesture k (step k e) = Some g ->
  match call_kind g with
  | Press => exists d, toRowScan k = Some (d, call_col g) /\ d <= fst e
  | Release => exists d, toButtonScan k = Some d /\ d <= fst e
  | Longpress => exists d, toLongPressed k = Some d /\ d <= fst e
  end.
Proof.
  step_cases k e; intros Hg; try discriminate Hg; injection Hg as <-;
    cbn [call_kind call_col] in *; try discriminate;
    eexists; (split; [reflexivity | leb_lia]).
Qed.

(** X6. From construction on, whatever the inputs: when a step classifies a
    press at column [c], a falling edge on column [c] arrived at least
    [DEBOUNCE_THRESH] earlier. *)
Theorem press_not_before_debounce
    (pre : list (Z * Input)) (e : Z * Input) (g : Call) :
  gesture (run Keypad_new pre) (step (run Keypad_new pre) e) = Some g ->
  call_kind g = Press ->
  exists t0, In (t0, Fall (call_col g)) pre /\ t0 + DEBOUNCE_THRESH <= fst e.
Proof.
  intros Hg Hk. pose proof (gesture_timer_due _ _ _ Hg) as H.
  rewrite Hk in H. destruct H as (d & Hd & Hle).
  destruct (timers_traced_new pre) as (H1 & _ & _).
  destruct (H1 _ _ Hd) as (t0 & Hin & ->). exists t0. split; assumption.
Qed.

Lemma press_not_before_debounce_witness :
  exists t0, In (t0, Fall (call_col (mkCall Press 2%N 1%N))) [(0, Fall 1%N)] /\
             t0 + DEBOUNCE_THRESH <= fst (60, RowScanFire (key_at 2%N)).
Proof.
  refine (press_not_before_debounce [(0, Fall 1%N)]
            (60, RowScanFire (key_at 2%N)) (mkCall Press 2%N 1%N) _ _);
    reflexivity.
Defined.

(** X7. From construction on, whatever the inputs: when a step classifies a
    release, a rising edge arrived at least [DEBOUNCE_THRESH] earlier. *)
Theorem release_not_before_debounce
    (pre : list (Z * Input)) (e : Z * Input) (g : Call) :
  gesture (run Keypad_new pre) (step (run Keypad_new pre) e) = Some g ->
  call_kind g = Release ->
  exists t0 c, In (t0, Rise c) pre /\ t0 + DEBOUNCE_THRESH <= fst e.
Proof.
  intros Hg Hk. pose proof (gesture_timer_due _ _ _ Hg) as H.
  rewrite Hk in H. destruct H as (d & Hd & Hle).
  destruct (timers_traced_new pre) as (_ & H2 & _).
  destruct (H2 _ Hd) as (t0 & c & Hin & ->). exists t0, c. split; assumption.
Qed.

Lemma release_not_before_debounce_witness :
  exists t0 c, In (t0, Rise c) (tr_press ++ [(100, Rise 1%N)]) /\
               t0 + DEBOUNCE_THRESH <= fst (160, ButtonScanFire true).
Proof.
  refine (release_not_before_debounce (tr_press ++ [(100, Rise 1%N)])
            (160, ButtonScanFire true) (mkCall Release 2%N 1%N) _ _);
    reflexivity.
Defined.

(** X8. From construction on, whatever the inputs: when a step classifies a
    long press, the row-confirm timer expired at least [LONG_PRESS_THRESH]
    earlier. *)
Theorem long_press_not_before_threshold
    (pre : list (Z * Input)) (e : Z * Input) (g : Call) :
  gesture (run Keypad_new pre) (step (run Keypad_new pre) e) = Some g ->
  call_kind g = Longpress ->
  exists t0 reads,
    In (t0, RowScanFire reads) pre /\ t0 + LONG_PRESS_THRESH <= fst e.
Proof.
  intros Hg Hk. pose proof (gesture_timer_due _ _ _ Hg) as H.
  rewrite Hk in H. destruct H as (d & Hd & Hle).
  destruct (timers_traced_new pre) as (_ & _ & H3).
  destruct (H3 _ Hd) as (t0 & rd & Hin & ->). exists t0, rd. split; assumption.
Qed.

Lemma long_press_not_before_threshold_witness :
  exists t0 reads,
    In (t0, RowScanFire reads) tr_press /\
    t0 + LONG_PRESS_THRESH <= fst (360, LongPressFire).
Proof.
  refine (long_press_not_before_threshold tr_press (360, LongPressFire)
            (mkCall Longpress 2%N 1%N) _ _); reflexivity.
Defined.

(** ** What reaches the queue *)

Lemma queue_step (k : Keypad) (e : Z * Input) :
  queue (step k e) = queue k ++ posted k (gesture k (step k e)).
Proof.
  unfold posted. step_cases k e; try rewrite app_nil_r; reflexivity.
Qed.

Lemma flags_step (kd : EventKind) (k : Keypad) (e : Z * Input) :
  is_listener_input e = false ->
  cb_enabled kd (step k e) = cb_enabled kd k.
Proof.
  unfold is_listener_input.
  destruct kd; step_cases k e; intros H; try discriminate H; reflexivity.
Qed.

Lemma posted_calls_from (tr : list (Z * Input)) :
  forall k,
    listeners_untouched tr = true ->
    queue (run k tr) = queue k ++ listened k (gestures k tr).
Proof.
  induction tr as [|e tr IH]; intros k Hl.
  - cbn. rewrite app_nil_r. reflexivity.
  - unfold listeners_untouched in Hl. cbn [forallb] in Hl.
    apply andb_true_iff in Hl. destruct Hl as [He Hl].
    apply negb_true_iff in He.
    unfold run. cbn [fold_left gestures]. fold (run (step k e) tr).
    rewrite (IH (step k e) Hl), queue_step, <- app_assoc. f_equal.
    assert (listened (step k e) (gestures (step k e) tr)
            = listened k (gestures (step k e) tr)) as ->.
    { unfold listened. apply filter_ext. intros g. apply flags_step, He. }
    unfold posted, listened.
    destruct (gesture k (step k e)) as [g|]; [|reflexivity].
    cbn [List.filter]. destruct (cb_enabled (call_kind g) k); reflexivity.
Qed.

(** X9. Over a run with no listener registered or removed, the closures posted
    on the queue are, in order, the classified gestures of the kinds whose
    listener is registered; the closures already pending stay ahead of
    them. *)
Theorem posted_calls_are_listened_gestures
    (k : Keypad) (tr : list (Z * Input)) :
  listeners_untouched tr = true ->
  queue (run k tr) = queue k ++ listened k (gestures k tr).
Proof.
  apply posted_calls_from.
Qed.

Lemma posted_calls_are_listened_gestures_witness :
  queue (run (register_onrelease Keypad_new) tr_press_release_press)
  = queue (register_onrelease Keypad_new)
    ++ listened (register_onrelease Keypad_new)
                (gestures (register_onrelease Keypad_new)
                          tr_press_release_press).
Proof.
  apply (posted_calls_are_listened_gestures (register_onrelease Keypad_new)
           tr_press_release_press).
  reflexivity.
Defined.

Lemma alternates_weaken (l : list Call) :
  alternates true l = true -> alternates false l = true.
Proof.
  induction l as [|g l IH]; [reflexivity|].
  cbn [alternates]. destruct (call_kind g); [discriminate | auto | exact IH].
Qed.

Lemma alternates_filter (f : Call -> bool) (l : list Call) :
  (forall g, call_kind g = Release -> f g = true) ->
  forall a, alternates a l = true -> alternates a (List.filter f l) = true.
Proof.
  intros Hf. induction l as [|g l IH]; intros a H; [reflexivity|].
  cbn [alternates] in H. cbn [List.filter].
  destruct (call_kind g) eqn:Hk.
  - destruct a; [discriminate|]. destruct (f g).
    + cbn [alternates]. rewrite Hk. apply IH, H.
    + apply alternates_weaken, IH, H.
  - rewrite (Hf g Hk). cbn [alternates]. rewrite Hk. apply IH, H.
  - destruct (f g); [cbn [alternates]; rewrite Hk|]; apply IH, H.
Qed.

(** X10. With the release listener registered and no listener registered or
    removed during the run, starting with no key held and an empty queue:
    between two press closures on the queue there is always a release
    closure, whichever of the other two listeners are registered. *)
Theorem queue_never_has_two_presses_without_release
    (k : Keypad) (tr : list (Z * Input)) (l1 : list Call) (p1 : Call)
    (mid : list Call) (p2 : Call) (l2 : list Call) :
  held k = false -> queue k = [] -> releaseCbEnabled k = true ->
  listeners_untouched tr = true ->
  queue (run k tr) = l1 ++ p1 :: mid ++ p2 :: l2 ->
  call_kind p1 = Press -> call_kind p2 = Press ->
  exists r, In r mid /\ call_kind r = Release.
Proof.
  intros Hh Hq Hr Hl Hrun H1 H2.
  rewrite (posted_calls_from tr k Hl), Hq in Hrun. cbn [app] in Hrun.
  pose proof (gestures_alternate tr k) as Ha. rewrite Hh in Ha.
  apply (alternates_filter (fun g => cb_enabled (call_kind g) k)) in Ha.
  - unfold listened in Hrun. rewrite Hrun in Ha.
    eapply alternates_split; eauto.
  - intros g Hg. rewrite Hg. exact Hr.
Qed.

Lemma queue_never_has_two_presses_without_release_witness :
  exists r, In r [mkCall Release 2%N 1%N] /\ call_kind r = Release.
Proof.
  refine (queue_never_has_two_presses_without_release
            (register_onrelease (register_onpress Keypad_new))
            tr_press_release_press []
            (mkCall Press 2%N 1%N) [mkCall Release 2%N 1%N]
            (mkCall Press 2%N 1%N) [] _ _ _ _ _ _ _); reflexivity.
Defined.

(** ** The blocking object *)

Lemma is_kind_eq (kd : EventKind) (g : Call) :
  is_kind kd g = true <-> call_kind g = kd.
Proof.
  unfold is_kind. destruct kd, (call_kind g); split; intros H;
    try discriminate; reflexivity.
Qed.

Lemma contents_invoke (kd : EventKind) (cl : Call) (kb : KeypadBlocking.t) :
  (length (KeypadBlocking.contents kd kb) <= KEYPAD_BUFFER_LEN)%nat ->
  KeypadBlocking.contents kd (KeypadBlocking.invoke cl kb)
  = keep_last (KeypadBlocking.contents kd kb ++ positions kd [cl]).
Proof.
  intros Hl. unfold KeypadBlocking.invoke, positions. cbn [List.filter].
  destruct (is_kind kd cl) eqn:E.
  - apply is_kind_eq in E. rewrite E, contents_push. cbn [map].
    apply push_keeps_last, Hl.
  - assert (call_kind cl <> kd) as Hne.
    { intros H. apply is_kind_eq in H. congruence. }
    rewrite contents_push_other by exact Hne.
    cbn [map]. rewrite app_nil_r. unfold keep_last.
    replace (length (KeypadBlocking.contents kd kb) - KEYPAD_BUFFER_LEN)%nat
      with 0%nat by lia.
    reflexivity.
Qed.

Lemma positions_app (kd : EventKind) (l1 l2 : list Call) :
  positions kd (l1 ++ l2) = positions kd l1 ++ positions kd l2.
Proof.
  unfold positions. rewrite List.filter_app, map_app. reflexivity.
Qed.

Lemma contents_invoke_all (kd : EventKind) (q : list Call) :
  forall kb,
    (length (KeypadBlocking.contents kd kb) <= KEYPAD_BUFFER_LEN)%nat ->
    KeypadBlocking.contents kd
      (fold_left (fun b cl => KeypadBlocking.invoke cl b) q kb)
    = keep_last (KeypadBlocking.contents kd kb ++ positions kd q).
Proof.
  induction q as [|cl q IH]; intros kb Hl.
  - cbn. rewrite app_nil_r. unfold keep_last.
    replace (length (KeypadBlocking.contents kd kb) - KEYPAD_BUFFER_LEN)%nat
      with 0%nat by lia.
    reflexivity.
  - cbn [fold_left]. rewrite IH.
    + rewrite (contents_invoke kd cl kb Hl), keep_last_app, <- app_assoc.
      rewrite <- positions_app. reflexivity.
    + rewrite (contents_invoke kd cl kb Hl), keep_last_length. lia.
Qed.

Lemma blocking_run_keypad (tr : list (Z * Input)) :
  forall kb,
    KeypadBlocking.keypad (blocking_run kb tr)
    = run (KeypadBlocking.keypad kb) tr /\
    forall kd, KeypadBlocking.contents kd (blocking_run kb tr)
               = KeypadBlocking.contents kd kb.
Proof.
  induction tr as [|e tr IH]; intros kb; [split; reflexivity|].
  unfold blocking_run, run. cbn [fold_left].
  fold (blocking_run (KeypadBlocking.feed kb e) tr).
  fold (run (step (KeypadBlocking.keypad kb) e) tr).
  destruct (IH (KeypadBlocking.feed kb e)) as [I1 I2].
  split; [exact I1|]. intros kd. rewrite I2. destruct kd; reflexivity.
Qed.

Lemma listened_all (k : Keypad) (l : list Call) :
  pressCbEnabled k = true -> releaseCbEnabled k = true ->
  longpressCbEnabled k = true -> listened k l = l.
Proof.
  intros H1 H2 H3. unfold listened. induction l as [|g l IH]; [reflexivity|].
  cbn [List.filter]. rewrite IH.
  unfold cb_enabled. destruct (call_kind g); rewrite ?H1, ?H2, ?H3; reflexivity.
Qed.

(** X11. A freshly constructed blocking object fed any inputs of the keypad
    (edges and timer expirations), with the worker then running the pending
    closures: each of the three buffers holds the positions of the gestures
    of its kind classified during the run, in order, the last
    [KEYPAD_BUFFER_LEN] of them if there were more; and nothing is left on
    the queue. *)
Theorem blocking_buffers_hold_last_gestures
    (kd : EventKind) (tr : list (Z * Input)) :
  listeners_untouched tr = true ->
  KeypadBlocking.contents kd
    (KeypadBlocking.dispatch_pending (blocking_run KeypadBlocking.new tr))
  = keep_last
      (positions kd (gestures (KeypadBlocking.keypad KeypadBlocking.new) tr)) /\
  queue (KeypadBlocking.keypad
           (KeypadBlocking.dispatch_pending
              (blocking_run KeypadBlocking.new tr))) = [].
Proof.
  intros Hl. split; [|reflexivity].
  destruct (blocking_run_keypad tr KeypadBlocking.new) as [Hk Hc].
  unfold KeypadBlocking.dispatch_pending.
  assert (forall k b, KeypadBlocking.contents kd (KeypadBlocking.set_keypad k b)
                      = KeypadBlocking.contents kd b) as Hset
      by (intros; destruct kd; reflexivity).
  rewrite Hset, contents_invoke_all.
  - rewrite Hc, Hk, (posted_calls_from tr _ Hl).
    rewrite listened_all by reflexivity.
    destruct kd; reflexivity.
  - rewrite Hc. destruct kd; cbn [length KeypadBlocking.contents map]; cbn; lia.
Qed.

Lemma blocking_buffers_hold_last_gestures_witness :
  KeypadBlocking.contents Press
    (KeypadBlocking.dispatch_pending
       (blocking_run KeypadBlocking.new tr_press_release_press))
  = keep_last
      (positions Press
         (gestures (KeypadBlocking.keypad KeypadBlocking.new)
                   tr_press_release_press)).
Proof.
  refine (proj1 (blocking_buffers_hold_last_gestures Press
                   tr_press_release_press _)).
  reflexivity.
Defined.

(** X12. However many positions are pushed on a buffer that holds nothing,
    the count of available entries is the number pushed capped at
    [KEYPAD_BUFFER_LEN], and draining hands back the last
    [KEYPAD_BUFFER_LEN] positions pushed, in the order pushed. *)
Theorem buffer_keeps_last_pushed
    (kd : EventKind) (es : list (N * N)) (kb : KeypadBlocking.t) :
  KeypadBlocking.available kd kb = 0%nat ->
  KeypadBlocking.available kd (KeypadBlocking.push_all kd es kb)
  = Nat.min (length es) KEYPAD_BUFFER_LEN /\
  fst (KeypadBlocking.drain kd (KeypadBlocking.push_all kd es kb))
  = keep_last es.
Proof.
  intros Hav. rewrite available_contents in Hav.
  assert (KeypadBlocking.contents kd kb = []) as He
      by (destruct (KeypadBlocking.contents kd kb); [reflexivity|discriminate]).
  assert (KeypadBlocking.contents kd (KeypadBlocking.push_all kd es kb)
          = keep_last es) as Hc.
  { rewrite contents_push_all by (rewrite He; cbn [length]; lia).
    rewrite He. reflexivity. }
  split.
  - rewrite available_contents, Hc. apply keep_last_length.
  - unfold KeypadBlocking.drain.
    destruct (poll_contents kd
                (KeypadBlocking.available kd
                   (KeypadBlocking.push_all kd es kb))
                (KeypadBlocking.push_all kd es kb)) as [P _].
    rewrite P, available_contents, firstn_all. exact Hc.
Qed.

Lemma buffer_keeps_last_pushed_witness :
  KeypadBlocking.available Release
    (KeypadBlocking.push_all Release [(2, 1); (0, 3)]%N KeypadBlocking.new)
  = Nat.min (length [(2, 1); (0, 3)]%N) KEYPAD_BUFFER_LEN /\
  fst (KeypadBlocking.drain Release
         (KeypadBlocking.push_all Release [(2, 1); (0, 3)]%N
            KeypadBlocking.new))
  = keep_last [(2, 1); (0, 3)]%N.
Proof.
  apply (buffer_keeps_last_pushed Release [(2, 1); (0, 3)]%N
           KeypadBlocking.new).
  reflexivity.
Defined.

(** X13. Peek and pop of one buffer. On an empty buffer peek reports nothing and
    pop returns [false] and changes nothing. Otherwise peek shows the oldest
    entry, pop returns [true] and removes exactly that entry, and peek does
    not change with the other buffers' traffic. *)
Theorem peek_pop_contract (kd : EventKind) (kb : KeypadBlocking.t) :
  (KeypadBlocking.available kd kb = 0%nat ->
   KeypadBlocking.peek kd kb = None /\
   KeypadBlocking.pop kd kb = (false, kb)) /\
  (KeypadBlocking.available kd kb <> 0%nat ->
   exists p,
     KeypadBlocking.peek kd kb = Some p /\
     fst (KeypadBlocking.pop kd kb) = true /\
     KeypadBlocking.contents kd kb
     = p :: KeypadBlocking.contents kd (snd (KeypadBlocking.pop kd kb)) /\
     KeypadBlocking.available kd (snd (KeypadBlocking.pop kd kb))
     = pred (KeypadBlocking.available kd kb)).
Proof.
  pose proof (peek_pop_contents kd kb) as H.
  rewrite !available_contents.
  destruct (KeypadBlocking.contents kd kb) as [|p l] eqn:E.
  - split; [intros _; exact H | intros Hn; contradiction].
  - split; [intros Hn; discriminate|]. intros _.
    destruct H as (H1 & H2 & H3). exists p.
    rewrite H3. repeat split; assumption.
Qed.

(** X14. The three buffers are independent: pushing on or popping from one
    leaves the entries of the other two, and the keypad, as they were. *)
Theorem buffers_are_independent
    (kd kd' : EventKind) (row col : N) (kb : KeypadBlocking.t) :
  kd <> kd' ->
  KeypadBlocking.contents kd' (KeypadBlocking.push kd row col kb)
  = KeypadBlocking.contents kd' kb /\
  KeypadBlocking.contents kd' (snd (KeypadBlocking.pop kd kb))
  = KeypadBlocking.contents kd' kb /\
  KeypadBlocking.keypad (KeypadBlocking.push kd row col kb)
  = KeypadBlocking.keypad kb /\
  KeypadBlocking.keypad (snd (KeypadBlocking.pop kd kb))
  = KeypadBlocking.keypad kb.
Proof.
  intros Hne. destruct kb as [k pb rb lb].
  destruct kd, kd'; try contradiction; cbn;
    try destruct pb; try destruct rb; try destruct lb; repeat split.
Qed.

Lemma buffers_are_independent_witness :
  KeypadBlocking.contents Release
    (KeypadBlocking.push Press 2%N 1%N KeypadBlocking.new)
  = KeypadBlocking.contents Release KeypadBlocking.new.
Proof.
  refine (proj1 (buffers_are_independent Press Release 2%N 1%N
                   KeypadBlocking.new _)).
  discriminate.
Defined.

(** ** Outcomes of [initialize] *)

